(** * Observable object properties (observable_properties.py), shallow embedding

    The Python module declares observable attributes with the [observable]
    descriptor (a subclass of [property]).  At class-creation time
    [observable.__set_name__] stores two Python lists, the subscriber list
    and the recursion guard, as attributes of the owner class; assignments
    go through [observable.__set__], which calls the property setter and
    then runs the subscribers, clearing the guard in a [finally] block.

    The model keeps Python's object graph explicit:
    - a heap of list objects ([heap]), because the lists are shared,
      mutable objects reached through attribute lookup;
    - instances with a class (its MRO, a list of class dictionaries) and an
      instance dictionary;
    - callbacks as records: an identity (Python [==]), an optional
      [__name__] and a body, a small script of actions (record the call,
      read the attribute, assign an attribute, raise);
    - a trace of the calls recorded by callbacks.
    Code that may not terminate (callbacks assigning attributes whose
    callbacks assign attributes ...) is run with fuel. *)

From Stdlib Require Import ZArith.
From stdpp Require Import base gmap strings list.

(* ------------------------------------------------------------------ *)
(** ** Python values and objects *)

(** address of a Python list object *)
Definition ref := nat.
(** identity of an instance *)
Definition inst := nat.

Inductive exn :=
| ObservablePropertyError (msg : string)
| AttributeError (attr : string)
| TypeError
(** an exception raised by a callback's own code *)
| CallbackError (cid : nat).

(** What the body of a callback does, one statement at a time. *)
Inductive action :=
(** record the call: [log.append((instance, name, value))] *)
| ALog
(** record the value read back: [log.append((instance, name, getattr(instance, name)))] *)
| ALogGet
(** [setattr(o, p, v)] *)
| ASet (o : inst) (p : string) (v : Z)
(** [raise ...] *)
| ARaise.

(** A subscribed callable ([Observer]).  [cb_id] is what Python's [==]
    compares; [cb_name] is the [__name__] attribute, [None] for callables
    without one (a [functools.partial], an instance with [__call__]). *)
Record callback := {
  cb_id : nat;
  cb_name : option string;
  cb_body : inst -> string -> Z -> list action }.

Definition cb_eqb (a b : callback) : bool := Nat.eqb (cb_id a) (cb_id b).

(** [x in l] on a Python list *)
Definition cb_in (c : callback) (l : list callback) : bool := existsb (cb_eqb c) l.

(** [l.remove(x)]: drops the first element equal to [x] *)
Fixpoint list_remove (c : callback) (l : list callback) : list callback :=
  match l with
  | [] => []
  | x :: l' => if cb_eqb c x then l' else x :: list_remove c l'
  end.

(** The fields [__set_name__] sets on an [observable] descriptor, with the
    accessors it wraps: the standard getter [return self._x] and, when
    present, setter [self._x = value] and deleter [del self._x], all on the
    backing attribute [backing]. *)
Record observable := {
  observable_property : string;
  subscribers : string;
  recursions : string;
  backing : string;
  has_setter : bool;
  has_deleter : bool }.

(** A class attribute: an [observable], a list (what [__set_name__] stores),
    or any other data descriptor such as a plain [property] (its accessors
    are not modelled). *)
Inductive cattr :=
| CObservable (d : observable)
| CList (r : ref)
| CPlain.

(** A class: its [__name__] and its MRO, own dictionary first. *)
Record pyclass := {
  cls_name : string;
  cls_mro : list (gmap string cattr) }.

Inductive pyval :=
| PInt (z : Z)
| PList (r : ref)
| PNone.

Record pyobject := {
  obj_class : pyclass;
  obj_dict : gmap string pyval }.

Record state := {
  heap : gmap ref (list callback);
  objs : gmap inst pyobject;
  next_ref : nat;
  trace : list (nat * inst * string * Z) }.

Definition heap_get (st : state) (r : ref) : list callback :=
  default [] (heap st !! r).

Definition heap_put (st : state) (r : ref) (l : list callback) : state :=
  {| heap := <[r := l]> (heap st); objs := objs st;
     next_ref := next_ref st; trace := trace st |}.

Definition put_obj (st : state) (o : inst) (ob : pyobject) : state :=
  {| heap := heap st; objs := <[o := ob]> (objs st);
     next_ref := next_ref st; trace := trace st |}.

Definition set_dict (ob : pyobject) (m : gmap string pyval) : pyobject :=
  {| obj_class := obj_class ob; obj_dict := m |}.

Definition log (st : state) (e : nat * inst * string * Z) : state :=
  {| heap := heap st; objs := objs st;
     next_ref := next_ref st; trace := trace st ++ [e] |}.

(** Lookup of a name along the MRO of a class. *)
Fixpoint mro_lookup (mro : list (gmap string cattr)) (n : string) : option cattr :=
  match mro with
  | [] => None
  | m :: rest => match m !! n with Some a => Some a | None => mro_lookup rest n end
  end.

(** [vars(cls)]: the class's own dictionary *)
Definition vars (c : pyclass) : gmap string cattr :=
  match cls_mro c with m :: _ => m | [] => ∅ end.

Definition class_name (st : state) (o : inst) : string :=
  match objs st !! o with Some ob => cls_name (obj_class ob) | None => "" end.

(* ------------------------------------------------------------------ *)
(** ** Results and the state/exception monad *)

Inductive res (A : Type) :=
| Ok (a : A)
| Raise (e : exn)
(** the fuel ran out: not a Python outcome *)
| OutOfFuel.
Arguments Ok {A} a.
Arguments Raise {A} e.
Arguments OutOfFuel {A}.

Definition M (A : Type) : Type := state -> res A * state.

Global Instance M_ret : MRet M := fun A a st => (Ok a, st).
Global Instance M_bind : MBind M := fun A B k m st =>
  match m st with
  | (Ok a, st') => k a st'
  | (Raise e, st') => (Raise e, st')
  | (OutOfFuel, st') => (OutOfFuel, st')
  end.

Definition raise {A} (e : exn) : M A := fun st => (Raise e, st).

(** [try: m finally: recursions.clear()] *)
Definition finally_clear {A} (g : ref) (m : M A) : M A := fun st =>
  let '(r, st1) := m st in (r, heap_put st1 g []).

(* ------------------------------------------------------------------ *)
(** ** Attribute access on instances *)

(** property.__get__ with the getter [return self._x] *)
Definition property_get (ob : pyobject) (d : observable) : res pyval :=
  match obj_dict ob !! backing d with
  | Some v => Ok v
  | None => Raise (AttributeError (backing d))
  end.

(** [getattr(o, n)]: a data descriptor of the class wins, then the instance
    dictionary, then the class attribute. *)
Definition py_getattr (st : state) (o : inst) (n : string) : res pyval :=
  match objs st !! o with
  | None => Raise (AttributeError n)
  | Some ob =>
      match mro_lookup (cls_mro (obj_class ob)) n with
      | Some (CObservable d) => property_get ob d
      | Some CPlain => Ok PNone
      | found =>
          match obj_dict ob !! n with
          | Some v => Ok v
          | None =>
              match found with
              | Some (CList r) => Ok (PList r)
              | _ => Raise (AttributeError n)
              end
          end
      end
  end.

(** [hasattr(o, n)]: [getattr] does not raise [AttributeError] *)
Definition py_hasattr (st : state) (o : inst) (n : string) : bool :=
  match py_getattr st o n with
  | Raise (AttributeError _) => false
  | _ => true
  end.

(** [getattr(o, n)] where a list is then iterated or appended to *)
Definition getattr_list (o : inst) (n : string) : M ref := fun st =>
  match py_getattr st o n with
  | Ok (PList r) => (Ok r, st)
  | Ok _ => (Raise TypeError, st)
  | Raise e => (Raise e, st)
  | OutOfFuel => (OutOfFuel, st)
  end.

(** [getattr(o, n)] where the value of an observable attribute is read *)
Definition getattr_int (o : inst) (n : string) : M Z := fun st =>
  match py_getattr st o n with
  | Ok (PInt z) => (Ok z, st)
  | Ok _ => (Raise TypeError, st)
  | Raise e => (Raise e, st)
  | OutOfFuel => (OutOfFuel, st)
  end.

(** property.__set__: [AttributeError] without a setter, else [self._x = value] *)
Definition property_set (o : inst) (d : observable) (v : Z) : M unit := fun st =>
  if has_setter d then
    match objs st !! o with
    | Some ob => (Ok tt, put_obj st o (set_dict ob (<[backing d := PInt v]> (obj_dict ob))))
    | None => (Raise (AttributeError (backing d)), st)
    end
  else (Raise (AttributeError (observable_property d)), st).

(** property.__delete__: [AttributeError] without a deleter, else [del self._x] *)
Definition property_delete (o : inst) (d : observable) : M unit := fun st =>
  if has_deleter d then
    match objs st !! o with
    | Some ob =>
        match obj_dict ob !! backing d with
        | Some _ => (Ok tt, put_obj st o (set_dict ob (delete (backing d) (obj_dict ob))))
        | None => (Raise (AttributeError (backing d)), st)
        end
    | None => (Raise (AttributeError (backing d)), st)
    end
  else (Raise (AttributeError (observable_property d)), st).

(** [delattr(o, n)] for a name that is no data descriptor of the class:
    only the instance dictionary is searched. *)
Definition delattr_dict (o : inst) (n : string) : M unit := fun st =>
  match objs st !! o with
  | Some ob =>
      match obj_dict ob !! n with
      | Some _ => (Ok tt, put_obj st o (set_dict ob (delete n (obj_dict ob))))
      | None => (Raise (AttributeError n), st)
      end
  | None => (Raise (AttributeError n), st)
  end.

(* ------------------------------------------------------------------ *)
(** ** observable: notification *)

(** The exception of the re-entrancy branch of [__execute_callbacks]; the
    f-string reads [observer.__name__] first. *)
Definition reentry_error (st : state) (o : inst) (d : observable) (observer : callback) : exn :=
  match cb_name observer with
  | None => AttributeError "__name__"
  | Some n =>
      ObservablePropertyError
        ("'" +:+ n +:+ "' is not allowed to modify observable property "
         +:+ "'" +:+ class_name st o +:+ "." +:+ observable_property d +:+ "'")
  end.

(** The shape of [__execute_callbacks(instance, value, subscribers, recursions)],
    resumed at index [k] of the iteration. *)
Definition exec_ty : Type := inst -> observable -> Z -> ref -> ref -> nat -> M unit.

(** [observable.__set__], given the callback loop. *)
Definition observable_set_with (exec : exec_ty) (o : inst) (d : observable) (v : Z) : M unit :=
  subs ← getattr_list o (subscribers d);
  recs ← getattr_list o (recursions d);
  finally_clear recs (property_set o d v ;; exec o d v subs recs 0).

(** [setattr(o, p, v)]: the [observable] data descriptor of the class, or a
    store in the instance dictionary (a plain property's setter is not
    modelled). *)
Definition py_setattr_with (exec : exec_ty) (o : inst) (p : string) (v : Z) : M unit := fun st =>
  match objs st !! o with
  | None => (Raise (AttributeError p), st)
  | Some ob =>
      match mro_lookup (cls_mro (obj_class ob)) p with
      | Some (CObservable d) => observable_set_with exec o d v st
      | Some CPlain => (Ok tt, st)
      | _ => (Ok tt, put_obj st o (set_dict ob (<[p := PInt v]> (obj_dict ob))))
      end
  end.

(** Running the body of a callback called as [observer(o, p, v)]. *)
Fixpoint run_actions (exec : exec_ty) (cid : nat) (o : inst) (p : string) (v : Z)
    (acts : list action) : M unit :=
  match acts with
  | [] => mret tt
  | ALog :: rest =>
      (fun st => (Ok tt, log st (cid, o, p, v))) ;; run_actions exec cid o p v rest
  | ALogGet :: rest =>
      x ← getattr_int o p;
      (fun st => (Ok tt, log st (cid, o, p, x))) ;; run_actions exec cid o p v rest
  | ASet o' p' v' :: rest =>
      py_setattr_with exec o' p' v' ;; run_actions exec cid o p v rest
  | ARaise :: _ => raise (CallbackError cid)
  end.

(** [observable.__execute_callbacks]:
<<
        for observer in subscribers:
            if observer not in recursions:
                recursions.append(observer)
                observer(__instance, self.observable_property, __value)
            else:
                raise ObservablePropertyError(...)
>>
    The [for] loop walks the live list by index [k], as Python's list
    iterator does. *)
Fixpoint execute_callbacks (fuel : nat) (o : inst) (d : observable) (v : Z)
    (subs recs : ref) (k : nat) {struct fuel} : M unit :=
  match fuel with
  | O => fun st => (OutOfFuel, st)
  | S f => fun st =>
      match heap_get st subs !! k with
      | None => (Ok tt, st)
      | Some observer =>
          if cb_in observer (heap_get st recs)
          then (Raise (reentry_error st o d observer), st)
          else
            (run_actions (execute_callbacks f) (cb_id observer) o (observable_property d) v
               (cb_body observer o (observable_property d) v) ;;
             execute_callbacks f o d v subs recs (S k))
              (heap_put st recs (heap_get st recs ++ [observer]))
      end
  end.

(** [observable.__set__] *)
Definition observable_set (fuel : nat) (o : inst) (d : observable) (v : Z) : M unit :=
  observable_set_with (execute_callbacks fuel) o d v.

(** [instance.p = v] *)
Definition py_setattr (fuel : nat) (o : inst) (p : string) (v : Z) : M unit :=
  py_setattr_with (execute_callbacks fuel) o p v.

(** [observable._run_observers] *)
Definition run_observers (fuel : nat) (o : inst) (d : observable) (v : Z) : M unit :=
  subs ← getattr_list o (subscribers d);
  recs ← getattr_list o (recursions d);
  finally_clear recs (execute_callbacks fuel o d v subs recs 0).

(** [observable.__delete__] *)
Definition observable_delete (o : inst) (d : observable) : M unit :=
  property_delete o d ;;
  delattr_dict o (subscribers d) ;;
  delattr_dict o (recursions d).

(** [del instance.p] *)
Definition py_delattr (o : inst) (p : string) : M unit := fun st =>
  match objs st !! o with
  | None => (Raise (AttributeError p), st)
  | Some ob =>
      match mro_lookup (cls_mro (obj_class ob)) p with
      | Some (CObservable d) => observable_delete o d st
      | Some CPlain => (Ok tt, st)
      | _ => delattr_dict o p st
      end
  end.

(* ------------------------------------------------------------------ *)
(** ** Class creation: observable.__set_name__ *)

(** A class-body declaration: an [@observable] property (name, backing
    attribute of its accessors, whether it has a setter, whether it has a
    deleter) or any other data descriptor. *)
Inductive decl :=
| DObservable (name backing : string) (setter deleter : bool)
| DPlain (name : string).

Definition class_hasattr (c : pyclass) (n : string) : bool :=
  bool_decide (is_Some (mro_lookup (cls_mro c) n)).

(** [setattr(cls, n, a)]: writes the class's own dictionary *)
Definition class_setattr (c : pyclass) (n : string) (a : cattr) : pyclass :=
  {| cls_name := cls_name c;
     cls_mro := match cls_mro c with
                | m :: rest => <[n := a]> m :: rest
                | [] => [{[n := a]}]
                end |}.

(** a fresh empty list [[]] *)
Definition new_list (st : state) : ref * state :=
  (next_ref st,
   {| heap := <[next_ref st := []]> (heap st); objs := objs st;
      next_ref := S (next_ref st); trace := trace st |}).

(** [observable.__set_name__(owner, owner_name)]:
<<
        self.observable_property = owner_name
        self.subscribers = f"__{owner_name}_subscribers"
        self.recursions = f"__{owner_name}_recursions"
        if not hasattr(owner, self.subscribers):
            setattr(owner, self.subscribers, [])
        if not hasattr(owner, self.recursions):
            setattr(owner, self.recursions, [])
>> *)
Definition set_name (owner : pyclass) (owner_name bk : string) (set del : bool) (st : state)
    : pyclass * state :=
  let d := {| observable_property := owner_name;
              subscribers := "__" +:+ owner_name +:+ "_subscribers";
              recursions := "__" +:+ owner_name +:+ "_recursions";
              backing := bk; has_setter := set; has_deleter := del |} in
  let owner := class_setattr owner owner_name (CObservable d) in
  let '(owner, st) :=
    if class_hasattr owner (subscribers d) then (owner, st)
    else let '(r, st) := new_list st in (class_setattr owner (subscribers d) (CList r), st) in
  if class_hasattr owner (recursions d) then (owner, st)
  else let '(r, st) := new_list st in (class_setattr owner (recursions d) (CList r), st).

(** the descriptor before [__set_name__] ran *)
Definition unnamed (bk : string) (set del : bool) : observable :=
  {| observable_property := ""; subscribers := ""; recursions := "";
     backing := bk; has_setter := set; has_deleter := del |}.

(** [class name(base): decls]: the namespace is filled, then
    [__set_name__] is called on each observable in declaration order. *)
Definition create_class (st : state) (name : string) (base : option pyclass)
    (decls : list decl) : pyclass * state :=
  let own := foldl (fun m dcl =>
                      match dcl with
                      | DObservable n bk set del => <[n := CObservable (unnamed bk set del)]> m
                      | DPlain n => <[n := CPlain]> m
                      end) ∅ decls in
  let c := {| cls_name := name;
              cls_mro := own :: match base with Some b => cls_mro b | None => [] end |} in
  foldl (fun '(c, st) dcl =>
           match dcl with
           | DObservable n bk set del => set_name c n bk set del st
           | DPlain _ => (c, st)
           end) (c, st) decls.

(** [cls()]: a new instance with an empty dictionary *)
Definition new_object (st : state) (c : pyclass) : inst * state :=
  (next_ref st,
   {| heap := heap st; objs := <[next_ref st := {| obj_class := c; obj_dict := ∅ |}]> (objs st);
      next_ref := S (next_ref st); trace := trace st |}).

(* ------------------------------------------------------------------ *)
(** ** The public functions and the Observable mixin *)

Definition subscribers_attr_name (p : string) : string := "__" +:+ p +:+ "_subscribers".

Definition not_observable (st : state) (o : inst) (p : string) : exn :=
  ObservablePropertyError
    ("'" +:+ p +:+ "' is not an observable property of '" +:+ class_name st o +:+ "'").

(** the body of the [hasattr] branch of [unsubscribe]:
<<
        if callback in subscribers:
            subscribers.remove(callback)
            return True
        else:
            return False
>> *)
Definition remove_subscriber (callback : callback) (subs : ref) : M bool := fun st =>
  if cb_in callback (heap_get st subs)
  then (Ok true, heap_put st subs (list_remove callback (heap_get st subs)))
  else (Ok false, st).

(** [subscribers.append(callback)] *)
Definition append_subscriber (callback : callback) (subs : ref) : M unit := fun st =>
  (Ok tt, heap_put st subs (heap_get st subs ++ [callback])).

(** [unsubscribe(callback, instance, property_name)] *)
Definition unsubscribe (callback : callback) (o : inst) (p : string) : M bool := fun st =>
  let n := subscribers_attr_name p in
  if py_hasattr st o n then
    (subs ← getattr_list o n; remove_subscriber callback subs) st
  else (Raise (not_observable st o p), st).

(** [subscribe(callback, instance, property_name)] *)
Definition subscribe (callback : callback) (o : inst) (p : string) : M unit :=
  unsubscribe callback o p ;;
  subs ← getattr_list o (subscribers_attr_name p);
  append_subscriber callback subs.

(** [Observable._observable_notify(self, property_name)] *)
Definition observable_notify (fuel : nat) (o : inst) (p : string) : M unit := fun st =>
  match objs st !! o with
  | None => (Raise (AttributeError "__class__"), st)
  | Some ob =>
      match vars (obj_class ob) !! p with
      | Some (CObservable d) => (v ← getattr_int o p; run_observers fuel o d v) st
      | _ => (Raise (not_observable st o p), st)
      end
  end.

(** [with instance._observable(property_name): body]: [_observable] is a
    [@contextmanager] generator that runs nothing before its [yield] and
    calls [self._observable_notify(property_name)] after it.  An exception
    of the body is thrown into the generator at the [yield], which does not
    catch it, so it propagates and the notification does not run. *)
Definition observable_ctx {A} (fuel : nat) (o : inst) (p : string) (body : M A) : M unit :=
  body ;; observable_notify fuel o p.

(* ------------------------------------------------------------------ *)
(** ** A concrete world: the spec's [Temperature] class *)

Definition st_empty : state := {| heap := ∅; objs := ∅; next_ref := 0; trace := [] |}.

(** [class Temperature(Observable)] with [@observable celsius] (setter
    [self._celsius = value], deleter [del self._celsius]) *)
Definition Temperature_decls : list decl := [DObservable "celsius" "_celsius" true true].

(** [def log(inst, name, val): log_list.append(...)] *)
Definition log_cb : callback :=
  {| cb_id := 1; cb_name := Some "log"; cb_body := fun _ _ _ => [ALog] |}.

(** [def bad(inst, name, val): inst.celsius = val + 1] *)
Definition bad_cb : callback :=
  {| cb_id := 2; cb_name := Some "bad"; cb_body := fun o p v => [ASet o p (v + 1)] |}.

(** the class and two instances [t], [u] *)
Definition temperature_world : pyclass * inst * inst * state :=
  let '(c, st) := create_class st_empty "Temperature" None Temperature_decls in
  let '(a, st) := new_object st c in
  let '(b, st) := new_object st c in
  (c, a, b, st).

Definition Temperature : pyclass := fst (fst (fst temperature_world)).
Definition t : inst := snd (fst (fst temperature_world)).
Definition u : inst := snd (fst temperature_world).
Definition st_T : state := snd temperature_world.

(** [def boom(inst, name, val): raise RuntimeError] *)
Definition boom_cb : callback :=
  {| cb_id := 3; cb_name := Some "boom"; cb_body := fun _ _ _ => [ARaise] |}.

(** [functools.partial(setter, 1)] with [setter(k, inst, name, val)]
    doing [inst.celsius = val + k]: a callable without [__name__] *)
Definition partial_bad_cb : callback :=
  {| cb_id := 4; cb_name := None; cb_body := fun o p v => [ASet o p (v + 1)] |}.

(** [def show(inst, name, val): log_list.append(getattr(inst, name))] *)
Definition show_cb : callback :=
  {| cb_id := 5; cb_name := Some "show"; cb_body := fun _ _ _ => [ALogGet] |}.

(** [def poke(inst, name, val): other.celsius = val] for the instance [u] *)
Definition poke_u_cb : callback :=
  {| cb_id := 6; cb_name := Some "poke"; cb_body := fun _ p v => [ASet u p v] |}.

(** [def poke(inst, name, val)]: when notified for [t], [u.celsius = val];
    for any other instance, [log_list.append((inst, name, val))] *)
Definition poke_t_cb : callback :=
  {| cb_id := 7; cb_name := Some "poke";
     cb_body := fun o p v => if Nat.eqb o t then [ASet u p v] else [ALog] |}.

(** [def fussy(inst, name, val)]: [raise ValueError] when [val == 10],
    else [log_list.append((inst, name, val))] *)
Definition fussy_cb : callback :=
  {| cb_id := 8; cb_name := Some "fussy";
     cb_body := fun _ _ v => if Z.eqb v 10 then [ARaise] else [ALog] |}.

(** [class A: @observable x] and [class B(A): @property x] (x overridden
    by a plain property), with an instance of [B]. *)
Definition override_world : pyclass * pyclass * inst * state :=
  let '(a, st) := create_class st_empty "A" None [DObservable "x" "_x" true false] in
  let '(b, st) := create_class st "B" (Some a) [DPlain "x"] in
  let '(ob, st) := new_object st b in
  (a, b, ob, st).

Definition b_obj : inst := snd (fst override_world).
Definition st_AB : state := snd override_world.

(** The descriptor of [Temperature.celsius] after [__set_name__]. *)
Definition celsius_d : observable :=
  {| observable_property := "celsius";
     subscribers := "__celsius_subscribers";
     recursions := "__celsius_recursions";
     backing := "_celsius"; has_setter := true; has_deleter := true |}.

(** [t] with [show] then [log] subscribed to [celsius] *)
Definition st_show_log : state :=
  snd ((subscribe show_cb t "celsius" ;; subscribe log_cb t "celsius") st_T).

(** [t] with [show], [bad], [log] subscribed to [celsius] *)
Definition st_show_bad_log : state :=
  snd ((subscribe show_cb t "celsius" ;; subscribe bad_cb t "celsius" ;;
        subscribe log_cb t "celsius") st_T).

(** [t] with [partial(setter, 1)] then [log] subscribed to [celsius] *)
Definition st_partial_log : state :=
  snd ((subscribe partial_bad_cb t "celsius" ;; subscribe log_cb t "celsius") st_T).

(** [t] with [show], [boom], [log] subscribed to [celsius] *)
Definition st_show_boom_log : state :=
  snd ((subscribe show_cb t "celsius" ;; subscribe boom_cb t "celsius" ;;
        subscribe log_cb t "celsius") st_T).

(** [t] with [log] then [partial(setter, 1)] subscribed to [celsius] *)
Definition st_log_partial : state :=
  snd ((subscribe log_cb t "celsius" ;; subscribe partial_bad_cb t "celsius") st_T).

(** [t] with [show] then [fussy] subscribed to [celsius] *)
Definition st_show_fussy : state :=
  snd ((subscribe show_cb t "celsius" ;; subscribe fussy_cb t "celsius") st_T).

(** [t] with [show] then [log] subscribed and [t.celsius = 20] done *)
Definition st_show_log_set : state := snd (py_setattr 10 t "celsius" 20 st_show_log).

(** [class A: @observable x] with a setter and no deleter, and an instance *)
Definition a_world : pyclass * inst * state :=
  let '(a, st) := create_class st_empty "A" None [DObservable "x" "_x" true false] in
  let '(o, st) := new_object st a in
  (a, o, st).

Definition a_obj : inst := snd (fst a_world).
Definition st_A : state := snd a_world.

(** The descriptor of [A.x] after [__set_name__]. *)
Definition x_d : observable :=
  {| observable_property := "x";
     subscribers := "__x_subscribers";
     recursions := "__x_recursions";
     backing := "_x"; has_setter := true; has_deleter := false |}.

(** Run a statement and keep the outcome and the log. *)
Definition outcome {A} (m : M A) (st : state) : res A * list (nat * inst * string * Z) :=
  let '(r, st') := m st in (r, trace st').

(* ------------------------------------------------------------------ *)
(** ** Notions used by the statements *)

(** A callback that, notified of [o.p = v], only records the call: its
    body appends the passed value, or the value read back from the
    attribute, to a log. *)
Definition logger (o : inst) (p : string) (v : Z) (c : callback) : Prop :=
  cb_body c o p v = [ALog] \/ cb_body c o p v = [ALogGet].

(** The body a callback runs when notified of [o.p = v] assigns no
    attribute. *)
Definition assigns_nothing (o : inst) (p : string) (v : Z) (c : callback) : bool :=
  forallb (fun a => match a with ASet _ _ _ => false | _ => true end) (cb_body c o p v).

(** The entries the subscribers [l] record when notified of [o.p = v]. *)
Definition notified (l : list callback) (o : inst) (p : string) (v : Z)
    : list (nat * inst * string * Z) :=
  map (fun c => (cb_id c, o, p, v)) l.

(** The descriptor that [instance.p] resolves to, when it is an observable. *)
Definition descr_of (st : state) (o : inst) (p : string) : option observable :=
  match objs st !! o with
  | Some ob =>
      match mro_lookup (cls_mro (obj_class ob)) p with
      | Some (CObservable d) => Some d
      | _ => None
      end
  | None => None
  end.

(** The class attribute [n] seen from instance [o] (MRO lookup). *)
Definition class_attr (st : state) (o : inst) (n : string) : option cattr :=
  match objs st !! o with
  | Some ob => mro_lookup (cls_mro (obj_class ob)) n
  | None => None
  end.

(** The entry [n] of the instance dictionary of [o]. *)
Definition inst_attr (st : state) (o : inst) (n : string) : option pyval :=
  match objs st !! o with
  | Some ob => obj_dict ob !! n
  | None => None
  end.

(** [p] is an observable attribute of [o], as [__set_name__] leaves it:
    its descriptor [d] carries the name [p], and the subscriber list
    [subs] and the guard [recs] are distinct list attributes of the class,
    not shadowed by the instance, and not the backing attribute. *)
Record obs_attr (st : state) (o : inst) (p : string) (d : observable) (subs recs : ref)
    : Prop := {
  oa_descr : class_attr st o p = Some (CObservable d);
  oa_name : observable_property d = p;
  oa_subs_name : subscribers d = subscribers_attr_name p;
  oa_subs : class_attr st o (subscribers d) = Some (CList subs);
  oa_recs : class_attr st o (recursions d) = Some (CList recs);
  oa_subs_inst : inst_attr st o (subscribers d) = None;
  oa_recs_inst : inst_attr st o (recursions d) = None;
  oa_distinct : subs <> recs;
  oa_backing_subs : backing d <> subscribers d;
  oa_backing_recs : backing d <> recursions d }.

(** No callback of [l] is in the guard [g]. *)
Definition fresh_in (g l : list callback) : Prop :=
  Forall (fun c => cb_in c g = false) l.

(** Number of entries of [l] equal to [c]. *)
Definition count_cb (c : callback) (l : list callback) : nat := length (filter (cb_eqb c) l).

(** The entry [n] of [vars(o.__class__)], the own dictionary of the class
    of [o] (inherited attributes are not in it). *)
Definition own_attr (st : state) (o : inst) (n : string) : option cattr :=
  match objs st !! o with
  | Some ob => vars (obj_class ob) !! n
  | None => None
  end.

(* ------------------------------------------------------------------ *)
(** ** Frame lemmas for the state operations *)

Lemma heap_get_put_eq st r l : heap_get (heap_put st r l) r = l.
Proof. unfold heap_get, heap_put; cbn. by rewrite lookup_insert_eq. Qed.

Lemma heap_get_put_ne st r r' l : r <> r' -> heap_get (heap_put st r l) r' = heap_get st r'.
Proof. intros Hne. unfold heap_get, heap_put; cbn. by rewrite lookup_insert_ne. Qed.

Lemma heap_get_log st e r : heap_get (log st e) r = heap_get st r.
Proof. reflexivity. Qed.

Lemma py_getattr_objs st st' o n : objs st = objs st' -> py_getattr st o n = py_getattr st' o n.
Proof. intros H. unfold py_getattr. by rewrite H. Qed.

Lemma descr_of_objs st st' o n : objs st = objs st' -> descr_of st o n = descr_of st' o n.
Proof. intros H. unfold descr_of. by rewrite H. Qed.

Lemma class_name_objs st st' o : objs st = objs st' -> class_name st o = class_name st' o.
Proof. intros H. unfold class_name. by rewrite H. Qed.

Lemma cb_in_app c g1 g2 : cb_in c (g1 ++ g2) = cb_in c g1 || cb_in c g2.
Proof. unfold cb_in. apply existsb_app. Qed.

Lemma cb_in_single c c' : cb_in c [c'] = Nat.eqb (cb_id c) (cb_id c').
Proof. unfold cb_in, cb_eqb; cbn. by rewrite orb_false_r. Qed.

Lemma cb_in_true c l : cb_in c l = true <-> cb_id c ∈ map cb_id l.
Proof.
  unfold cb_in, cb_eqb. rewrite existsb_exists. split.
  - intros (x & Hx & Heq). apply Nat.eqb_eq in Heq. rewrite Heq.
    apply list_elem_of_In, in_map, Hx.
  - intros Hin. apply list_elem_of_In, in_map_iff in Hin as (x & Heq & Hx).
    exists x. split; [exact Hx | apply Nat.eqb_eq; congruence].
Qed.

(** One notification of a logger. *)
Lemma run_logger exec c o p v st :
  logger o p v c -> py_getattr st o p = Ok (PInt v) ->
  run_actions exec (cb_id c) o p v (cb_body c o p v) st = (Ok tt, log st (cb_id c, o, p, v)).
Proof.
  intros Hl Hget. destruct Hl as [-> | ->]; [reflexivity |].
  cbn [run_actions]. unfold mbind, M_bind, getattr_int. rewrite Hget. reflexivity.
Qed.

Lemma fresh_in_snoc g c l :
  fresh_in g l -> cb_id c ∉ map cb_id l -> fresh_in (g ++ [c]) l.
Proof.
  intros Hf Hnin. apply Forall_forall. intros x Hx.
  rewrite cb_in_app, cb_in_single. apply Forall_forall with (x := x) in Hf; [|exact Hx].
  rewrite Hf. cbn. apply Nat.eqb_neq. intros Heq. apply Hnin. rewrite <- Heq.
  apply list_elem_of_In, in_map, list_elem_of_In, Hx.
Qed.

(** The notification loop over a run of loggers: each one is appended to
    the guard, called once and records [(instance, name, value)]. *)
Lemma execute_loggers fuel o d v subs recs k st l pre rest :
  subs <> recs ->
  heap_get st subs = l ->
  drop k l = pre ++ rest ->
  Forall (logger o (observable_property d) v) pre ->
  fresh_in (heap_get st recs) pre ->
  NoDup (map cb_id pre) ->
  py_getattr st o (observable_property d) = Ok (PInt v) ->
  length pre < fuel ->
  exists st',
    execute_callbacks fuel o d v subs recs k st
      = execute_callbacks (fuel - length pre) o d v subs recs (k + length pre) st' /\
    heap_get st' subs = l /\
    heap_get st' recs = heap_get st recs ++ pre /\
    objs st' = objs st /\
    trace st' = trace st ++ notified pre o (observable_property d) v.
Proof.
  intros Hne. revert k st fuel.
  induction pre as [|c pre IH]; intros k st fuel Hsubs Hdrop Hlog Hfresh Hnd Hget Hfuel.
  - exists st. rewrite Nat.sub_0_r, Nat.add_0_r, !app_nil_r. auto.
  - destruct fuel as [|f]; [cbn in Hfuel; lia|].
    inversion Hlog as [|? ? Hc Hlog']; subst.
    inversion Hfresh as [|? ? Hcf Hfresh']; subst.
    cbn in Hnd. apply NoDup_cons in Hnd as [Hnin Hnd].
    assert (Hk : heap_get st subs !! k = Some c).
    { rewrite <- (Nat.add_0_r k), <- lookup_drop, Hdrop. reflexivity. }
    set (st1 := heap_put st recs (heap_get st recs ++ [c])).
    set (e := (cb_id c, o, observable_property d, v)).
    assert (Hrun : run_actions (execute_callbacks f) (cb_id c) o (observable_property d) v
                     (cb_body c o (observable_property d) v) st1 = (Ok tt, log st1 e)).
    { apply run_logger; [exact Hc|]. rewrite <- Hget. apply py_getattr_objs. reflexivity. }
    destruct (IH (S k) (log st1 e) f) as (st' & Hex & Hs' & Hr' & Ho' & Ht').
    + rewrite heap_get_log. unfold st1. rewrite heap_get_put_ne; auto.
    + replace (S k) with (k + 1) by lia. rewrite <- drop_drop, Hdrop. reflexivity.
    + exact Hlog'.
    + rewrite heap_get_log. unfold st1. rewrite heap_get_put_eq.
      apply fresh_in_snoc; assumption.
    + exact Hnd.
    + rewrite <- Hget. apply py_getattr_objs. reflexivity.
    + cbn in Hfuel. lia.
    + exists st'. split; [|split; [|split; [|split]]].
      * cbn [execute_callbacks]. rewrite Hk, Hcf.
        unfold mbind, M_bind. fold st1. rewrite Hrun, Hex.
        cbn [length]. replace (k + S (length pre)) with (S k + length pre) by lia.
        reflexivity.
      * exact Hs'.
      * rewrite Hr', heap_get_log. unfold st1. rewrite heap_get_put_eq, <- app_assoc. reflexivity.
      * rewrite Ho'. reflexivity.
      * rewrite Ht'. cbn. rewrite <- app_assoc. reflexivity.
Qed.

Lemma obs_attr_objs st st' o p d subs recs :
  objs st = objs st' -> obs_attr st o p d subs recs -> obs_attr st' o p d subs recs.
Proof.
  intros Heq [H1 H2 H0 H3 H4 H5 H6 H7 H8 H9].
  unfold class_attr, inst_attr in *. rewrite Heq in *. by constructor.
Qed.

Lemma obs_attr_list st o n r :
  class_attr st o n = Some (CList r) -> inst_attr st o n = None ->
  py_getattr st o n = Ok (PList r).
Proof.
  unfold class_attr, inst_attr, py_getattr.
  destruct (objs st !! o) as [ob|]; [|discriminate].
  intros -> ->. reflexivity.
Qed.

Lemma getattr_list_ok st o n r :
  class_attr st o n = Some (CList r) -> inst_attr st o n = None ->
  getattr_list o n st = (Ok r, st).
Proof. intros H1 H2. unfold getattr_list. by rewrite (obs_attr_list _ _ _ _ H1 H2). Qed.

(** [fset] stores the value in the backing attribute; nothing else changes. *)
Lemma dict_write_spec st o p d subs recs v :
  obs_attr st o p d subs recs ->
  exists st1,
    (forall exec, class_attr st o (backing d) = None ->
       py_setattr_with exec o (backing d) v st = (Ok tt, st1)) /\
    (has_setter d = true -> property_set o d v st = (Ok tt, st1)) /\
    obs_attr st1 o p d subs recs /\
    own_attr st1 o p = own_attr st o p /\
    py_getattr st1 o p = Ok (PInt v) /\
    heap st1 = heap st /\ trace st1 = trace st /\
    class_name st1 o = class_name st o.
Proof.
  intros Ha. pose proof Ha as [H1 H2 H0 H3 H4 H5 H6 H7 H8 H9].
  unfold class_attr, inst_attr in *.
  destruct (objs st !! o) as [ob|] eqn:Hob; [|discriminate].
  exists (put_obj st o (set_dict ob (<[backing d := PInt v]> (obj_dict ob)))).
  split; [|split; [|split; [|split; [|split; [|repeat split]]]]].
  - intros exec Hb. unfold py_setattr_with. rewrite Hob. by rewrite Hb.
  - intros Hset. unfold property_set. rewrite Hset, Hob. reflexivity.
  - constructor; unfold class_attr, inst_attr, put_obj, set_dict; cbn;
      rewrite ?lookup_insert_eq; cbn; try assumption.
    + rewrite lookup_insert_ne; [exact H5|congruence].
    + rewrite lookup_insert_ne; [exact H6|congruence].
  - unfold own_attr, put_obj; cbn. rewrite lookup_insert_eq, Hob. reflexivity.
  - unfold py_getattr, put_obj; cbn. rewrite ?lookup_insert_eq; cbn. rewrite H1.
    unfold property_get; cbn. by rewrite lookup_insert_eq.
  - unfold class_name, put_obj; cbn. rewrite ?lookup_insert_eq, Hob. reflexivity.
Qed.

Lemma property_set_spec st o p d subs recs v :
  obs_attr st o p d subs recs -> has_setter d = true ->
  exists st1,
    property_set o d v st = (Ok tt, st1) /\
    obs_attr st1 o p d subs recs /\
    py_getattr st1 o p = Ok (PInt v) /\
    heap st1 = heap st /\ trace st1 = trace st /\
    class_name st1 o = class_name st o.
Proof.
  intros Ha Hset.
  destruct (dict_write_spec st o p d subs recs v Ha) as (st1 & _ & Hps & H1 & _ & H2 & H3 & H4 & H5).
  exists st1. auto 7.
Qed.

(** [instance.p = v] on an observable attribute is [observable.__set__]. *)
Lemma py_setattr_observable exec st o p d subs recs v :
  obs_attr st o p d subs recs ->
  py_setattr_with exec o p v st
    = finally_clear recs (property_set o d v ;; exec o d v subs recs 0) st.
Proof.
  intros Ha. pose proof Ha as [H1 H2 H0 H3 H4 H5 H6 H7 H8 H9].
  unfold py_setattr_with. pose proof H1 as H1'. unfold class_attr in H1'.
  destruct (objs st !! o) as [ob|] eqn:Hob; [|discriminate]. rewrite H1'.
  unfold observable_set_with, mbind, M_bind.
  rewrite (getattr_list_ok _ _ _ _ H3 H5), (getattr_list_ok _ _ _ _ H4 H6). reflexivity.
Qed.

Lemma finally_clear_guard {A} g (m : M A) st : heap_get (snd (finally_clear g m st)) g = [].
Proof. unfold finally_clear. destruct (m st) as [r st1]. apply heap_get_put_eq. Qed.

Lemma fresh_in_nil l : fresh_in [] l.
Proof. apply Forall_forall. reflexivity. Qed.

(** An assignment whose subscribers are all loggers: the value is stored,
    each subscriber is notified once, in list order, and the guard is
    cleared. *)
Lemma set_loggers fuel st o p d subs recs l v :
  obs_attr st o p d subs recs -> has_setter d = true ->
  heap_get st subs = l -> heap_get st recs = [] ->
  Forall (logger o p v) l -> NoDup (map cb_id l) -> length l < fuel ->
  exists st',
    py_setattr fuel o p v st = (Ok tt, st') /\
    trace st' = trace st ++ notified l o p v /\
    heap_get st' subs = l /\ heap_get st' recs = [] /\
    py_getattr st' o p = Ok (PInt v).
Proof.
  intros Ha Hset Hs Hr Hl Hnd Hf.
  destruct (property_set_spec st o p d subs recs v Ha Hset)
    as (st1 & Hps & Ha1 & Hg1 & Hh1 & Ht1 & Hc1).
  unfold py_setattr. rewrite (py_setattr_observable _ _ _ _ _ _ _ _ Ha).
  unfold finally_clear, mbind, M_bind. rewrite Hps.
  destruct (execute_loggers fuel o d v subs recs 0 st1 l l [])
    as (st2 & Hex & Hs2 & Hr2 & Ho2 & Ht2).
  - exact (oa_distinct _ _ _ _ _ _ Ha).
  - unfold heap_get. rewrite Hh1. exact Hs.
  - by rewrite app_nil_r.
  - rewrite (oa_name _ _ _ _ _ _ Ha). exact Hl.
  - unfold heap_get. rewrite Hh1. fold (heap_get st recs). rewrite Hr. apply fresh_in_nil.
  - exact Hnd.
  - rewrite (oa_name _ _ _ _ _ _ Ha). exact Hg1.
  - exact Hf.
  - rewrite Hex. replace (fuel - length l) with (S (fuel - length l - 1)) by lia.
    cbn [execute_callbacks]. rewrite Hs2, lookup_ge_None_2 by lia.
    exists (heap_put st2 recs []). split; [reflexivity|].
    rewrite (oa_name _ _ _ _ _ _ Ha) in Ht2.
    split; [|split; [|split]].
    + cbn. rewrite Ht2, Ht1. reflexivity.
    + rewrite heap_get_put_ne; [exact Hs2|]. intros E. exact (oa_distinct _ _ _ _ _ _ Ha (eq_sym E)).
    + apply heap_get_put_eq.
    + rewrite <- Hg1. apply py_getattr_objs. cbn. exact Ho2.
Qed.

Lemma bind_ok {A B} (m : M A) (k : A -> M B) st a st' :
  m st = (Ok a, st') -> (m ≫= k) st = k a st'.
Proof. intros H. unfold mbind, M_bind. by rewrite H. Qed.

Lemma bind_raise {A B} (m : M A) (k : A -> M B) st e st' :
  m st = (Raise e, st') -> (m ≫= k) st = (Raise e, st').
Proof. intros H. unfold mbind, M_bind. by rewrite H. Qed.

Lemma finally_clear_eq {A} g (m : M A) st r st1 :
  m st = (r, st1) -> finally_clear g m st = (r, heap_put st1 g []).
Proof. intros H. unfold finally_clear. by rewrite H. Qed.

Lemma cb_in_false c l : cb_id c ∉ map cb_id l -> cb_in c l = false.
Proof.
  intros Hn. destruct (cb_in c l) eqn:E; [|reflexivity].
  apply cb_in_true in E. contradiction.
Qed.

Lemma nodup_snoc (pre : list callback) c :
  NoDup (map cb_id (pre ++ [c])) -> NoDup (map cb_id pre) /\ cb_id c ∉ map cb_id pre.
Proof.
  rewrite map_app. intros H. apply NoDup_app in H as (H1 & H2 & _).
  split; [exact H1|]. intros Hin. apply (H2 _ Hin). cbn. left.
Qed.

Lemma reentry_error_objs st st' o d c :
  objs st = objs st' -> reentry_error st o d c = reentry_error st' o d c.
Proof. intros H. unfold reentry_error. by rewrite (class_name_objs _ _ _ H). Qed.

(** The first steps of an assignment: the value is stored and the loggers
    in front of the subscriber list are notified; the loop then stands at
    index [length pre] with [pre] in the guard. *)
Lemma set_prefix fuel st o p d subs recs pre rest v :
  obs_attr st o p d subs recs -> has_setter d = true ->
  heap_get st subs = pre ++ rest -> heap_get st recs = [] ->
  Forall (logger o p v) pre -> NoDup (map cb_id pre) -> length pre < fuel ->
  exists st2,
    py_setattr fuel o p v st
      = finally_clear recs
          (execute_callbacks (fuel - length pre) o d v subs recs (length pre)) st2 /\
    obs_attr st2 o p d subs recs /\
    py_getattr st2 o p = Ok (PInt v) /\
    heap_get st2 subs = pre ++ rest /\ heap_get st2 recs = pre /\
    class_name st2 o = class_name st o /\
    trace st2 = trace st ++ notified pre o p v.
Proof.
  intros Ha Hsetter Hs Hr Hl Hnd Hf.
  destruct (property_set_spec st o p d subs recs v Ha Hsetter)
    as (st1 & Hps & Ha1 & Hg1 & Hh1 & Ht1 & Hc1).
  pose proof (oa_name _ _ _ _ _ _ Ha) as Hp.
  destruct (execute_loggers fuel o d v subs recs 0 st1 (pre ++ rest) pre rest)
    as (st2 & Hex & Hs2 & Hr2 & Ho2 & Ht2).
  - exact (oa_distinct _ _ _ _ _ _ Ha).
  - unfold heap_get. rewrite Hh1. exact Hs.
  - reflexivity.
  - rewrite Hp. exact Hl.
  - unfold heap_get. rewrite Hh1. fold (heap_get st recs). rewrite Hr. apply fresh_in_nil.
  - exact Hnd.
  - rewrite Hp. exact Hg1.
  - exact Hf.
  - exists st2. unfold py_setattr. rewrite (py_setattr_observable _ _ _ _ _ _ _ _ Ha).
    unfold finally_clear at 1. rewrite (bind_ok _ _ _ _ _ Hps), Hex.
    split; [reflexivity|].
    split; [exact (obs_attr_objs _ _ _ _ _ _ _ (eq_sym Ho2) Ha1)|].
    split; [rewrite <- Hg1; exact (py_getattr_objs _ _ _ _ Ho2)|].
    split; [exact Hs2|].
    split; [rewrite Hr2; unfold heap_get; rewrite Hh1; fold (heap_get st recs); by rewrite Hr|].
    split; [rewrite <- Hc1; exact (class_name_objs _ _ _ Ho2)|].
    rewrite Ht2, Ht1, Hp. reflexivity.
Qed.

Lemma reentry_error_class st st' o d c :
  class_name st o = class_name st' o -> reentry_error st o d c = reentry_error st' o d c.
Proof. intros H. unfold reentry_error. by rewrite H. Qed.

(** A subscriber that assigns the attribute it is notified about.  The
    nested assignment stores [w], then its loop meets the first subscriber,
    already in the guard, and raises; the error travels out of the callback
    and out of the outer assignment; both [finally] blocks clear the guard. *)
Lemma set_reentrant fuel st o p d subs recs pre c post v w :
  obs_attr st o p d subs recs -> has_setter d = true ->
  heap_get st subs = pre ++ c :: post -> heap_get st recs = [] ->
  Forall (logger o p v) pre -> NoDup (map cb_id (pre ++ [c])) ->
  cb_body c o p v = [ASet o p w] ->
  S (length pre) < fuel ->
  exists st',
    py_setattr fuel o p v st = (Raise (reentry_error st o d (hd c pre)), st') /\
    py_getattr st' o p = Ok (PInt w) /\
    heap_get st' recs = [] /\ heap_get st' subs = pre ++ c :: post /\
    trace st' = trace st ++ notified pre o p v /\
    obs_attr st' o p d subs recs /\
    class_name st' o = class_name st o.
Proof.
  intros Ha Hsetter Hs Hr Hl Hnd Hc Hf.
  apply nodup_snoc in Hnd as [Hnd Hnin].
  pose proof (oa_name _ _ _ _ _ _ Ha) as Hp.
  pose proof (oa_distinct _ _ _ _ _ _ Ha) as Hne.
  destruct (set_prefix fuel st o p d subs recs pre (c :: post) v)
    as (st2 & Hset & Ha2 & Hg2 & Hs2 & Hr2 & Hc2 & Ht2); try assumption; [lia|].
  rewrite Hset.
  replace (fuel - length pre) with (S (S (fuel - length pre - 2))) by lia.
  set (f := fuel - length pre - 2).
  set (st3 := heap_put st2 recs (pre ++ [c])).
  assert (Ho3 : objs st3 = objs st2) by reflexivity.
  assert (Ha3 : obs_attr st3 o p d subs recs)
    by exact (obs_attr_objs _ _ _ _ _ _ _ (eq_sym Ho3) Ha2).
  destruct (property_set_spec st3 o p d subs recs w Ha3 Hsetter)
    as (st4 & Hps & Ha4 & Hg4 & Hh4 & Ht4 & Hc4).
  assert (Hs4 : heap_get st4 subs = pre ++ c :: post).
  { unfold heap_get. rewrite Hh4. fold (heap_get st3 subs). unfold st3.
    rewrite heap_get_put_ne by (intros E; exact (Hne (eq_sym E))). exact Hs2. }
  assert (Hr4 : heap_get st4 recs = pre ++ [c]).
  { unfold heap_get. rewrite Hh4. fold (heap_get st3 recs). apply heap_get_put_eq. }
  assert (Hcl : class_name st4 o = class_name st o).
  { rewrite Hc4, (class_name_objs _ _ _ Ho3). exact Hc2. }
  assert (Hnested : execute_callbacks (S f) o d w subs recs 0 st4
                    = (Raise (reentry_error st o d (hd c pre)), st4)).
  { cbn [execute_callbacks]. rewrite Hs4, Hr4.
    assert (H0 : (pre ++ c :: post) !! 0 = Some (hd c pre)) by (destruct pre; reflexivity).
    assert (Hin : cb_in (hd c pre) (pre ++ [c]) = true).
    { destruct pre as [|c0 pre']; cbn; unfold cb_eqb; rewrite Nat.eqb_refl; reflexivity. }
    rewrite H0, Hin. by rewrite (reentry_error_class _ _ _ _ _ Hcl). }
  assert (Hinner : py_setattr_with (execute_callbacks (S f)) o p w st3
                   = (Raise (reentry_error st o d (hd c pre)), heap_put st4 recs [])).
  { rewrite (py_setattr_observable _ _ _ _ _ _ _ _ Ha3).
    apply finally_clear_eq. rewrite (bind_ok _ _ _ _ _ Hps). exact Hnested. }
  assert (Houter : execute_callbacks (S (S f)) o d v subs recs (length pre) st2
                   = (Raise (reentry_error st o d (hd c pre)), heap_put st4 recs [])).
  { cbn [execute_callbacks]. rewrite Hs2, (list_lookup_middle _ _ _ _ eq_refl), Hr2.
    rewrite (cb_in_false _ _ Hnin). fold st3. rewrite Hp, Hc. cbn [run_actions].
    erewrite bind_raise; [reflexivity|]. erewrite bind_raise; [reflexivity|exact Hinner]. }
  eexists. split; [apply finally_clear_eq; exact Houter|].
  split; [|split; [|split]].
  - rewrite <- Hg4. apply py_getattr_objs. reflexivity.
  - apply heap_get_put_eq.
  - rewrite heap_get_put_ne by (intros E; exact (Hne (eq_sym E))).
    rewrite heap_get_put_ne by (intros E; exact (Hne (eq_sym E))). exact Hs4.
  - split; [cbn; rewrite Ht4; exact Ht2|]. split.
    + eapply obs_attr_objs; [|exact Ha4]. reflexivity.
    + rewrite <- Hcl. apply class_name_objs. reflexivity.
Qed.

(** A subscriber that raises: the value is already stored, the loggers in
    front of it were notified, the exception reaches the assignment and
    the guard is cleared. *)
Lemma set_raising fuel st o p d subs recs pre c post rest v :
  obs_attr st o p d subs recs -> has_setter d = true ->
  heap_get st subs = pre ++ c :: post -> heap_get st recs = [] ->
  Forall (logger o p v) pre -> NoDup (map cb_id (pre ++ [c])) ->
  cb_body c o p v = ARaise :: rest ->
  length pre < fuel ->
  exists st',
    py_setattr fuel o p v st = (Raise (CallbackError (cb_id c)), st') /\
    py_getattr st' o p = Ok (PInt v) /\
    heap_get st' recs = [] /\ heap_get st' subs = pre ++ c :: post /\
    trace st' = trace st ++ notified pre o p v.
Proof.
  intros Ha Hsetter Hs Hr Hl Hnd Hc Hf.
  apply nodup_snoc in Hnd as [Hnd Hnin].
  pose proof (oa_name _ _ _ _ _ _ Ha) as Hp.
  pose proof (oa_distinct _ _ _ _ _ _ Ha) as Hne.
  destruct (set_prefix fuel st o p d subs recs pre (c :: post) v)
    as (st2 & Hset & Ha2 & Hg2 & Hs2 & Hr2 & Hc2 & Ht2); try assumption.
  rewrite Hset.
  replace (fuel - length pre) with (S (fuel - length pre - 1)) by lia.
  set (st3 := heap_put st2 recs (pre ++ [c])).
  assert (Houter : execute_callbacks (S (fuel - length pre - 1)) o d v subs recs (length pre) st2
                   = (Raise (CallbackError (cb_id c)), st3)).
  { cbn [execute_callbacks]. rewrite Hs2, (list_lookup_middle _ _ _ _ eq_refl), Hr2.
    rewrite (cb_in_false _ _ Hnin). fold st3. rewrite Hp, Hc. reflexivity. }
  eexists. split; [apply finally_clear_eq; exact Houter|].
  split; [|split; [|split]].
  - rewrite <- Hg2. apply py_getattr_objs. reflexivity.
  - apply heap_get_put_eq.
  - rewrite heap_get_put_ne by (intros E; exact (Hne (eq_sym E))).
    unfold st3. rewrite heap_get_put_ne by (intros E; exact (Hne (eq_sym E))). exact Hs2.
  - exact Ht2.
Qed.

(** [unsubscribe] on an observable attribute. *)
Lemma unsubscribe_spec st o p d subs recs c :
  obs_attr st o p d subs recs ->
  unsubscribe c o p st = remove_subscriber c subs st.
Proof.
  intros Ha. pose proof Ha as [H1 H2 H0 H3 H4 H5 H6 H7 H8 H9].
  unfold unsubscribe, py_hasattr. rewrite <- H0, (obs_attr_list _ _ _ _ H3 H5).
  apply (bind_ok _ _ _ _ _ (getattr_list_ok _ _ _ _ H3 H5)).
Qed.

(** [l.remove(c)] drops exactly the first entry equal to [c]. *)
Lemma list_remove_first c l :
  cb_in c l = true ->
  exists l1 c' l2,
    l = l1 ++ c' :: l2 /\ cb_id c' = cb_id c /\ cb_in c l1 = false /\
    list_remove c l = l1 ++ l2.
Proof.
  induction l as [|x l IH]; [discriminate|]. intros Hin.
  destruct (cb_eqb c x) eqn:E.
  - exists [], x, l. unfold cb_eqb in E. apply Nat.eqb_eq in E.
    split; [reflexivity|]. split; [auto|]. split; [reflexivity|].
    cbn. unfold cb_eqb. rewrite E, Nat.eqb_refl. reflexivity.
  - assert (Hin' : cb_in c l = true).
    { unfold cb_in in *. cbn in Hin. rewrite E in Hin. exact Hin. }
    destruct (IH Hin') as (l1 & c' & l2 & -> & Hid & Hn & Hr).
    exists (x :: l1), c', l2.
    split; [reflexivity|]. split; [exact Hid|]. split.
    + unfold cb_in in *. cbn. rewrite E. exact Hn.
    + cbn. rewrite E, Hr. reflexivity.
Qed.

Lemma list_remove_absent c l : cb_in c l = false -> list_remove c l = l.
Proof.
  induction l as [|x l IH]; [reflexivity|]. intros H.
  unfold cb_in in H. cbn in H. apply orb_false_iff in H as [E H].
  cbn. rewrite E, IH; [reflexivity|exact H].
Qed.

Lemma nodup_mid (pre post : list callback) c :
  NoDup (map cb_id (pre ++ c :: post)) ->
  NoDup (map cb_id (pre ++ [c])) /\ NoDup (map cb_id (pre ++ post)).
Proof.
  rewrite !map_app. cbn. intros H. apply NoDup_ListNoDup in H. split.
  - apply NoDup_ListNoDup. apply (NoDup_app_remove_r _ (map cb_id post)).
    rewrite <- app_assoc. exact H.
  - apply NoDup_ListNoDup. exact (NoDup_remove_1 _ _ _ H).
Qed.

Lemma list_remove_app_absent c pre l :
  cb_in c pre = false -> list_remove c (pre ++ l) = pre ++ list_remove c l.
Proof.
  induction pre as [|x pre IH]; [reflexivity|]. intros H.
  unfold cb_in in H. cbn in H. apply orb_false_iff in H as [E H].
  cbn. rewrite E, IH; [reflexivity|exact H].
Qed.

Lemma list_remove_head c l : list_remove c (c :: l) = l.
Proof. cbn. unfold cb_eqb. by rewrite Nat.eqb_refl. Qed.

Ltac solve_obs_attr :=
  constructor; vm_compute; first [reflexivity | discriminate | intros ?; discriminate].

Ltac solve_loggers :=
  repeat (apply List.Forall_cons; [try unfold logger; first [left; reflexivity | right; reflexivity] |]);
  apply List.Forall_nil.

(* ------------------------------------------------------------------ *)
(** ** The claims *)

(** C1 (amended).  Assigning an observable attribute that has a setter,
    with an empty guard:
    - when every subscriber, notified of the new value, only records the
      call (or the value it reads back) and each is listed once, the value
      is stored and every subscriber is invoked exactly once, in
      subscription order, with the instance, the attribute name and the
      new value;
    - when a subscriber raises at once (the ones in front of it only
      recording the call), the cycle ends there: the subscribers after it
      are not invoked and the exception reaches the assignment. *)
Theorem C1_assignment_notifies_each_subscriber fuel st o p d subs recs v :
  obs_attr st o p d subs recs -> has_setter d = true -> heap_get st recs = [] ->
  (Forall (logger o p v) (heap_get st subs) -> NoDup (map cb_id (heap_get st subs)) ->
   length (heap_get st subs) < fuel ->
   exists st',
     py_setattr fuel o p v st = (Ok tt, st') /\
     trace st' = trace st ++ notified (heap_get st subs) o p v /\
     py_getattr st' o p = Ok (PInt v)) /\
  (forall pre c post rest,
   heap_get st subs = pre ++ c :: post ->
   Forall (logger o p v) pre -> NoDup (map cb_id (pre ++ [c])) ->
   cb_body c o p v = ARaise :: rest -> length pre < fuel ->
   exists st',
     py_setattr fuel o p v st = (Raise (CallbackError (cb_id c)), st') /\
     trace st' = trace st ++ notified pre o p v).
Proof.
  intros Ha Hset Hr. split.
  - intros Hl Hnd Hf.
    destruct (set_loggers fuel st o p d subs recs (heap_get st subs) v Ha Hset eq_refl Hr Hl Hnd Hf)
      as (st' & H1 & H2 & _ & _ & H5).
    exists st'. auto.
  - intros pre c post rest Hs Hl Hnd Hc Hf.
    destruct (set_raising fuel st o p d subs recs pre c post rest v Ha Hset Hs Hr Hl Hnd Hc Hf)
      as (st' & H1 & _ & _ & _ & H5).
    exists st'. auto.
Qed.

Lemma C1_assignment_notifies_each_subscriber_witness :
  (exists st',
     py_setattr 10 t "celsius" 20 st_show_log = (Ok tt, st') /\
     trace st' = trace st_show_log ++ notified (heap_get st_show_log 0) t "celsius" 20 /\
     py_getattr st' t "celsius" = Ok (PInt 20)) /\
  (exists st',
     py_setattr 10 t "celsius" 30 st_show_boom_log = (Raise (CallbackError (cb_id boom_cb)), st') /\
     trace st' = trace st_show_boom_log ++ notified [show_cb] t "celsius" 30).
Proof.
  split.
  - apply (proj1 (C1_assignment_notifies_each_subscriber 10 st_show_log t "celsius" celsius_d 0 1 20
                    ltac:(solve_obs_attr) eq_refl ltac:(vm_compute; reflexivity))).
    + vm_compute. solve_loggers.
    + vm_compute. repeat constructor; set_solver.
    + vm_compute. lia.
  - apply (proj2 (C1_assignment_notifies_each_subscriber 10 st_show_boom_log t "celsius" celsius_d 0 1 30
                    ltac:(solve_obs_attr) eq_refl ltac:(vm_compute; reflexivity))
             [show_cb] boom_cb [log_cb] []).
    + vm_compute. reflexivity.
    + solve_loggers.
    + vm_compute. repeat constructor; set_solver.
    + reflexivity.
    + cbn. lia.
Defined.

(** C1 (counterexample).  [boom] (which raises) and [log] are subscribed
    to [t.celsius], in that order; [t.celsius = 20] raises and [log], a
    currently subscribed callback, is never invoked. *)
Lemma C1_raising_subscriber_ends_cycle :
  let st := snd ((subscribe boom_cb t "celsius" ;; subscribe log_cb t "celsius") st_T) in
  map cb_id (heap_get st 0) = [3; 1] /\
  outcome (py_setattr 10 t "celsius" 20) st = (Raise (CallbackError 3), []).
Proof. vm_compute. split; reflexivity. Qed.

(** C2 (code_bug).  The subscriber list and the guard are attributes of
    the class, shared by its instances: [log] subscribed on [t] is invoked
    when [u.celsius] is assigned, and a callback of [t] that assigns
    [u.celsius] trips the guard of [t]'s cycle. *)
Theorem C2_lists_shared_between_instances :
  t <> u /\
  outcome (subscribe log_cb t "celsius" ;; py_setattr 10 u "celsius" 5) st_T
    = (Ok tt, [(1, u, "celsius", 5%Z)]) /\
  fst ((subscribe poke_u_cb t "celsius" ;; py_setattr 10 t "celsius" 1) st_T)
    = Raise (ObservablePropertyError
               "'poke' is not allowed to modify observable property 'Temperature.celsius'").
Proof. vm_compute. split; [discriminate|split; reflexivity]. Qed.

(** C3 (counterexample).  With [bad] ([inst.celsius = val + 1])
    subscribed, [t.celsius = 10] does not complete: it raises
    [ObservablePropertyError], the attribute holds the nested value 11,
    and the next assignment [t.celsius = 40] raises again. *)
Lemma C3_outer_assignment_raises :
  let st1 := snd (subscribe bad_cb t "celsius" st_T) in
  let st2 := snd (py_setattr 10 t "celsius" 10 st1) in
  fst (py_setattr 10 t "celsius" 10 st1)
    = Raise (ObservablePropertyError
               "'bad' is not allowed to modify observable property 'Temperature.celsius'") /\
  py_getattr st2 t "celsius" = Ok (PInt 11) /\
  fst (py_setattr 10 t "celsius" 40 st2)
    = Raise (ObservablePropertyError
               "'bad' is not allowed to modify observable property 'Temperature.celsius'").
Proof. vm_compute. split; [|split]; reflexivity. Qed.

(** C3 (amended).  A subscriber [c] that, whenever notified, assigns the
    attribute of the instance it is notified about (the attribute has a
    setter, the guard is empty, the other subscribers only record the call
    and each callback is listed once; the first subscriber of the list has
    a [__name__]): the nested assignment stores its value [g v] and raises
    [ObservablePropertyError]; the exception propagates through [c], so
    the outer assignment raises it too and the attribute keeps [g v]; both
    [finally] blocks clear the guard.  While [c] stays subscribed, every
    later assignment raises the same error; once [c] is unsubscribed, a
    later assignment succeeds and notifies the remaining subscribers. *)
Theorem C3_reentrant_assignment_propagates fuel st o p d subs recs pre c post g v :
  obs_attr st o p d subs recs -> has_setter d = true ->
  heap_get st subs = pre ++ c :: post -> heap_get st recs = [] ->
  (forall x, Forall (logger o p x) (pre ++ post)) -> NoDup (map cb_id (pre ++ c :: post)) ->
  (forall x, cb_body c o p x = [ASet o p (g x)]) -> cb_name (hd c pre) <> None ->
  S (length (pre ++ c :: post)) < fuel ->
  exists msg st',
    py_setattr fuel o p v st = (Raise (ObservablePropertyError msg), st') /\
    py_getattr st' o p = Ok (PInt (g v)) /\
    heap_get st' recs = [] /\
    (forall v', exists st'',
       py_setattr fuel o p v' st' = (Raise (ObservablePropertyError msg), st'')) /\
    (forall v', exists st'',
       (unsubscribe c o p ;; py_setattr fuel o p v') st' = (Ok tt, st'') /\
       trace st'' = trace st' ++ notified (pre ++ post) o p v').
Proof.
  intros Ha Hset Hs Hr Hl Hnd Hc Hn Hf.
  assert (Hpre : forall x, Forall (logger o p x) pre)
    by (intros x; exact (proj1 (proj1 (Forall_app _ _ _) (Hl x)))).
  destruct (nodup_mid _ _ _ Hnd) as [Hnd1 Hnd2].
  pose proof (proj2 (nodup_snoc _ _ Hnd1)) as Hnin.
  rewrite length_app in Hf; cbn in Hf.
  destruct (set_reentrant fuel st o p d subs recs pre c post v (g v))
    as (st' & Hset1 & Hg & Hr' & Hs' & Ht' & Ha' & Hcl);
    try assumption; [apply Hpre|apply Hc|lia|].
  unfold reentry_error in Hset1.
  destruct (cb_name (hd c pre)) as [n|] eqn:En; [|congruence].
  eexists _, st'. split; [exact Hset1|]. split; [exact Hg|]. split; [exact Hr'|]. split.
  - intros v'.
    destruct (set_reentrant fuel st' o p d subs recs pre c post v' (g v'))
      as (st'' & Hset2 & _); try assumption; [apply Hpre|apply Hc|lia|].
    exists st''. rewrite Hset2. unfold reentry_error. rewrite En, Hcl. reflexivity.
  - intros v'.
    set (st3 := heap_put st' subs (pre ++ post)).
    assert (Hun : unsubscribe c o p st' = (Ok true, st3)).
    { rewrite (unsubscribe_spec _ _ _ _ _ _ _ Ha'). unfold remove_subscriber.
      rewrite Hs'. replace (cb_in c (pre ++ c :: post)) with true.
      - unfold st3. rewrite list_remove_app_absent, list_remove_head;
          [reflexivity|exact (cb_in_false _ _ Hnin)].
      - symmetry. apply cb_in_true. rewrite map_app. apply list_elem_of_In, in_or_app.
        right. left. reflexivity. }
    pose proof (oa_distinct _ _ _ _ _ _ Ha) as Hne.
    destruct (set_loggers fuel st3 o p d subs recs (pre ++ post) v')
      as (st'' & H1 & H2 & _ & _ & _).
    + eapply obs_attr_objs; [|exact Ha']. reflexivity.
    + exact Hset.
    + apply heap_get_put_eq.
    + unfold st3. rewrite heap_get_put_ne by exact Hne. exact Hr'.
    + apply Hl.
    + exact Hnd2.
    + rewrite length_app. lia.
    + exists st''. split; [rewrite (bind_ok _ _ _ _ _ Hun); exact H1|]. exact H2.
Qed.

Lemma C3_reentrant_assignment_propagates_witness :
  exists msg st',
    py_setattr 10 t "celsius" 10 st_show_bad_log = (Raise (ObservablePropertyError msg), st') /\
    py_getattr st' t "celsius" = Ok (PInt 11) /\
    heap_get st' 1 = [] /\
    (forall v', exists st'',
       py_setattr 10 t "celsius" v' st' = (Raise (ObservablePropertyError msg), st'')) /\
    (forall v', exists st'',
       (unsubscribe bad_cb t "celsius" ;; py_setattr 10 t "celsius" v') st' = (Ok tt, st'') /\
       trace st'' = trace st' ++ notified [show_cb; log_cb] t "celsius" v').
Proof.
  apply (C3_reentrant_assignment_propagates 10 st_show_bad_log t "celsius" celsius_d 0 1
           [show_cb] bad_cb [log_cb] (fun x => x + 1)%Z 10).
  - solve_obs_attr.
  - reflexivity.
  - vm_compute. reflexivity.
  - vm_compute. reflexivity.
  - intros x. solve_loggers.
  - vm_compute. repeat constructor; set_solver.
  - intros x. reflexivity.
  - discriminate.
  - vm_compute. lia.
Defined.

Lemma count_cb_app c l1 l2 : count_cb c (l1 ++ l2) = count_cb c l1 + count_cb c l2.
Proof. unfold count_cb. by rewrite filter_app, length_app. Qed.

Lemma count_cb_absent c l : cb_in c l = false -> count_cb c l = 0.
Proof.
  induction l as [|x l IH]; [reflexivity|]. intros H.
  unfold cb_in in H. cbn in H. apply orb_false_iff in H as [E H].
  unfold count_cb. cbn. rewrite E. exact (IH H).
Qed.

Lemma count_cb_cons_eq c c' l :
  cb_id c' = cb_id c -> count_cb c (c' :: l) = S (count_cb c l).
Proof.
  intros H. assert (E : cb_eqb c c' = true) by (unfold cb_eqb; rewrite H; apply Nat.eqb_refl).
  unfold count_cb. rewrite filter_cons_True; [reflexivity|]. rewrite E. exact I.
Qed.

Lemma count_cb_remove c l : count_cb c l <= 1 -> count_cb c (list_remove c l) = 0.
Proof.
  intros Hc. destruct (cb_in c l) eqn:E.
  - destruct (list_remove_first c l E) as (l1 & c' & l2 & -> & Hid & Hn & ->).
    rewrite count_cb_app, count_cb_cons_eq in Hc by exact Hid.
    rewrite count_cb_app. lia.
  - rewrite list_remove_absent by exact E. exact (count_cb_absent _ _ E).
Qed.

Lemma remove_subscriber_spec c subs st :
  exists b st1,
    remove_subscriber c subs st = (Ok b, st1) /\
    objs st1 = objs st /\
    heap_get st1 subs = list_remove c (heap_get st subs) /\
    (forall r, r <> subs -> heap_get st1 r = heap_get st r).
Proof.
  unfold remove_subscriber. destruct (cb_in c (heap_get st subs)) eqn:E.
  - eexists _, _. split; [reflexivity|]. split; [reflexivity|].
    split; [apply heap_get_put_eq|]. intros r Hr. apply heap_get_put_ne. congruence.
  - eexists _, _. split; [reflexivity|]. split; [reflexivity|].
    split; [symmetry; exact (list_remove_absent _ _ E)|]. reflexivity.
Qed.

(** C4.  [subscribe] first removes an existing equal subscription, then
    appends the callback: afterwards the list holds exactly one entry for
    it, at the end (given the at-most-one invariant that [subscribe]
    itself establishes). *)
Theorem C4_subscribe_moves_to_end st o p d subs recs c :
  obs_attr st o p d subs recs ->
  count_cb c (heap_get st subs) <= 1 ->
  exists st',
    subscribe c o p st = (Ok tt, st') /\
    heap_get st' subs = list_remove c (heap_get st subs) ++ [c] /\
    count_cb c (heap_get st' subs) = 1 /\
    last (heap_get st' subs) = Some c.
Proof.
  intros Ha Hc. pose proof Ha as [H1 H2 H0 H3 H4 H5 H6 H7 H8 H9].
  destruct (remove_subscriber_spec c subs st) as (b & st1 & Hrm & Ho1 & Hs1 & _).
  assert (Ha1 : obs_attr st1 o p d subs recs) by (eapply obs_attr_objs; [symmetry; exact Ho1|exact Ha]).
  unfold subscribe. rewrite (bind_ok _ _ _ _ _ (eq_trans (unsubscribe_spec _ _ _ _ _ _ c Ha) Hrm)).
  rewrite <- H0, (bind_ok _ _ _ _ _ (getattr_list_ok _ _ _ _ (oa_subs _ _ _ _ _ _ Ha1)
                                       (oa_subs_inst _ _ _ _ _ _ Ha1))).
  eexists. split; [reflexivity|]. rewrite heap_get_put_eq, Hs1.
  split; [reflexivity|]. split.
  - rewrite count_cb_app, count_cb_remove by exact Hc.
    rewrite count_cb_cons_eq by reflexivity. reflexivity.
  - apply last_snoc.
Qed.

Lemma C4_subscribe_moves_to_end_witness :
  exists st',
    subscribe show_cb t "celsius" st_show_log = (Ok tt, st') /\
    heap_get st' 0 = list_remove show_cb (heap_get st_show_log 0) ++ [show_cb] /\
    count_cb show_cb (heap_get st' 0) = 1 /\
    last (heap_get st' 0) = Some show_cb.
Proof.
  apply (C4_subscribe_moves_to_end st_show_log t "celsius" celsius_d 0 1).
  - solve_obs_attr.
  - vm_compute. lia.
Defined.

(** C5 (code_bug).  The guard is one class-level list, shared by all
    instances.  [log] and then [poke] (which, notified for [t], assigns
    [u.celsius]) are subscribed through [t].  Assigning [u.celsius = 1]
    from outside runs both callbacks for [u].  But when [t.celsius = 1]
    runs them, [u]'s cycle starts with [t]'s [log] and [poke] in the
    guard: it finds [log] there and raises before calling anyone, and the
    assignment [t.celsius = 1] raises too. *)
Theorem C5_other_instance_cycle_starts_with_guard :
  t <> u /\
  class_attr st_T t "__celsius_recursions" = Some (CList 1) /\
  class_attr st_T u "__celsius_recursions" = Some (CList 1) /\
  outcome (subscribe log_cb t "celsius" ;; subscribe poke_t_cb t "celsius" ;;
           py_setattr 10 u "celsius" 1) st_T
    = (Ok tt, [(1, u, "celsius", 1%Z); (7, u, "celsius", 1%Z)]) /\
  outcome (subscribe log_cb t "celsius" ;; subscribe poke_t_cb t "celsius" ;;
           py_setattr 10 t "celsius" 1) st_T
    = (Raise (ObservablePropertyError
                "'log' is not allowed to modify observable property 'Temperature.celsius'"),
       [(1, t, "celsius", 1%Z)]).
Proof. vm_compute. split; [discriminate|repeat split]. Qed.

(** C6 (counterexample).  [bad] stores 11 through its nested assignment
    before raising; after [t.celsius = 10] raises, the attribute reads 11,
    not the value 10 assigned at the call site. *)
Lemma C6_nested_value_survives_failed_assignment :
  let st1 := snd (subscribe bad_cb t "celsius" st_T) in
  (exists e, fst (py_setattr 10 t "celsius" 10 st1) = Raise e) /\
  py_getattr (snd (py_setattr 10 t "celsius" 10 st1)) t "celsius" = Ok (PInt 11).
Proof. vm_compute. split; [eexists; reflexivity|reflexivity]. Qed.

Lemma run_actions_noassign exec cid o p v acts st :
  forallb (fun a => match a with ASet _ _ _ => false | _ => true end) acts = true ->
  objs (snd (run_actions exec cid o p v acts st)) = objs st /\
  heap (snd (run_actions exec cid o p v acts st)) = heap st.
Proof.
  revert st. induction acts as [|a acts IH]; intros st H; [split; reflexivity|].
  cbn [forallb] in H. apply andb_prop in H as [Ha H].
  destruct a as [| |o' p' v'|]; cbn [run_actions]; try discriminate.
  - unfold mbind, M_bind. exact (IH (log st (cid, o, p, v)) H).
  - unfold mbind, M_bind, getattr_int.
    destruct (py_getattr st o p) as [[z| |]| |]; try (split; reflexivity).
    exact (IH (log st (cid, o, p, z)) H).
  - split; reflexivity.
Qed.

Lemma execute_noassign fuel o d v subs recs k st :
  subs <> recs ->
  forallb (assigns_nothing o (observable_property d) v) (heap_get st subs) = true ->
  objs (snd (execute_callbacks fuel o d v subs recs k st)) = objs st /\
  heap_get (snd (execute_callbacks fuel o d v subs recs k st)) subs = heap_get st subs.
Proof.
  intros Hne. revert k st. induction fuel as [|f IH]; intros k st Hall; [split; reflexivity|].
  cbn [execute_callbacks].
  destruct (heap_get st subs !! k) as [c|] eqn:Hk; [|split; reflexivity].
  destruct (cb_in c (heap_get st recs)); [split; reflexivity|].
  set (st1 := heap_put st recs (heap_get st recs ++ [c])).
  assert (Hc : assigns_nothing o (observable_property d) v c = true).
  { apply forallb_forall with (x := c) in Hall; [exact Hall|].
    apply list_elem_of_In. eapply list_elem_of_lookup_2. exact Hk. }
  destruct (run_actions_noassign (execute_callbacks f) (cb_id c) o (observable_property d) v
              (cb_body c o (observable_property d) v) st1 Hc) as [Ho Hh].
  unfold mbind, M_bind.
  destruct (run_actions (execute_callbacks f) (cb_id c) o (observable_property d) v
              (cb_body c o (observable_property d) v) st1) as [r st2] eqn:Er.
  cbn [snd] in Ho, Hh.
  assert (Hs2 : heap_get st2 subs = heap_get st subs).
  { unfold heap_get. rewrite Hh. fold (heap_get st1 subs). unfold st1.
    apply heap_get_put_ne. congruence. }
  destruct r as [[]| |].
  - destruct (IH (S k) st2) as [H1 H2]; [rewrite Hs2; exact Hall|].
    split; [rewrite H1; exact Ho|rewrite H2; exact Hs2].
  - split; [exact Ho|exact Hs2].
  - split; [exact Ho|exact Hs2].
Qed.

(** C6 (amended).  On an assignment to an observable attribute that has a
    setter, the setter runs first: the assignment is the subscriber loop
    run from a state where the attribute already reads the new value
    (nothing else changed).  When no subscriber assigns an attribute, the
    attribute reads the new value after the assignment, whatever its
    outcome (a subscriber raising included).  A subscriber that assigns
    the attribute (the subscribers in front of it only recording the call,
    the guard empty) stores its own value, and that value is the one read
    back after the assignment has raised. *)
Theorem C6_value_stored_before_subscribers fuel st o p d subs recs v :
  obs_attr st o p d subs recs -> has_setter d = true ->
  (exists st1,
     py_getattr st1 o p = Ok (PInt v) /\ heap st1 = heap st /\ trace st1 = trace st /\
     py_setattr fuel o p v st = finally_clear recs (execute_callbacks fuel o d v subs recs 0) st1) /\
  (forallb (assigns_nothing o p v) (heap_get st subs) = true ->
   py_getattr (snd (py_setattr fuel o p v st)) o p = Ok (PInt v)) /\
  (forall pre c post w,
   heap_get st subs = pre ++ c :: post -> heap_get st recs = [] ->
   Forall (logger o p v) pre -> NoDup (map cb_id (pre ++ [c])) ->
   cb_body c o p v = [ASet o p w] -> S (length pre) < fuel ->
   exists e st', py_setattr fuel o p v st = (Raise e, st') /\ py_getattr st' o p = Ok (PInt w)).
Proof.
  intros Ha Hset.
  destruct (property_set_spec st o p d subs recs v Ha Hset)
    as (st1 & Hps & Ha1 & Hg1 & Hh1 & Ht1 & Hc1).
  assert (Hpy : py_setattr fuel o p v st
                = finally_clear recs (execute_callbacks fuel o d v subs recs 0) st1).
  { unfold py_setattr. rewrite (py_setattr_observable _ _ _ _ _ _ _ _ Ha).
    unfold finally_clear. rewrite (bind_ok _ _ _ _ _ Hps). reflexivity. }
  split; [exists st1; auto|]. split.
  - intros Hall. rewrite Hpy. unfold finally_clear.
    destruct (execute_noassign fuel o d v subs recs 0 st1) as [Ho _].
    + exact (oa_distinct _ _ _ _ _ _ Ha).
    + rewrite (oa_name _ _ _ _ _ _ Ha). unfold heap_get. rewrite Hh1. exact Hall.
    + destruct (execute_callbacks fuel o d v subs recs 0 st1) as [r st2].
      cbn [snd] in Ho |- *. rewrite <- Hg1. apply py_getattr_objs. exact Ho.
  - intros pre c post w Hs Hr Hl Hnd Hc Hf.
    destruct (set_reentrant fuel st o p d subs recs pre c post v w Ha Hset Hs Hr Hl Hnd Hc Hf)
      as (st' & H1 & H2 & _).
    eexists _, st'. split; [exact H1|exact H2].
Qed.

Lemma C6_value_stored_before_subscribers_witness :
  (exists st1,
     py_getattr st1 t "celsius" = Ok (PInt 30) /\ heap st1 = heap st_show_boom_log /\
     trace st1 = trace st_show_boom_log /\
     py_setattr 10 t "celsius" 30 st_show_boom_log
       = finally_clear 1 (execute_callbacks 10 t celsius_d 30 0 1 0) st1) /\
  fst (py_setattr 10 t "celsius" 30 st_show_boom_log) = Raise (CallbackError (cb_id boom_cb)) /\
  py_getattr (snd (py_setattr 10 t "celsius" 30 st_show_boom_log)) t "celsius" = Ok (PInt 30) /\
  (exists e st', py_setattr 10 t "celsius" 10 st_show_bad_log = (Raise e, st') /\
     py_getattr st' t "celsius" = Ok (PInt 11)).
Proof.
  split; [|split; [|split]].
  - apply (proj1 (C6_value_stored_before_subscribers 10 st_show_boom_log t "celsius" celsius_d 0 1 30
                    ltac:(solve_obs_attr) eq_refl)).
  - vm_compute. reflexivity.
  - apply (proj1 (proj2 (C6_value_stored_before_subscribers 10 st_show_boom_log t "celsius"
                           celsius_d 0 1 30 ltac:(solve_obs_attr) eq_refl))).
    vm_compute. reflexivity.
  - apply (proj2 (proj2 (C6_value_stored_before_subscribers 10 st_show_bad_log t "celsius"
                           celsius_d 0 1 10 ltac:(solve_obs_attr) eq_refl))
             [show_cb] bad_cb [log_cb] 11%Z).
    + vm_compute. reflexivity.
    + vm_compute. reflexivity.
    + solve_loggers.
    + vm_compute. repeat constructor; set_solver.
    + reflexivity.
    + cbn. lia.
Defined.

(** C7 (code_bug).  [class B(A)] overrides the observable [x] of [A] by a
    plain property: [x] is not an observable attribute of [B], yet
    [subscribe] and [unsubscribe] on an instance of [B] do not raise (the
    check finds [A.__x_subscribers]); [_observable_notify] does raise. *)
Theorem C7_overridden_name_not_rejected :
  class_attr st_AB b_obj "x" = Some CPlain /\
  fst (subscribe log_cb b_obj "x" st_AB) = Ok tt /\
  fst (unsubscribe log_cb b_obj "x" (snd (subscribe log_cb b_obj "x" st_AB))) = Ok true /\
  fst (observable_notify 10 b_obj "x" st_AB)
    = Raise (ObservablePropertyError "'x' is not an observable property of 'B'").
Proof. vm_compute. repeat split. Qed.

(** C8.  On an observable attribute, [unsubscribe] removes exactly the
    first matching entry and returns [True] when the callback is
    subscribed, and returns [False] leaving the state unchanged when it is
    not. *)
Theorem C8_unsubscribe_removes_one st o p d subs recs c :
  obs_attr st o p d subs recs ->
  (cb_in c (heap_get st subs) = true ->
   exists l1 c' l2,
     heap_get st subs = l1 ++ c' :: l2 /\ cb_id c' = cb_id c /\ cb_in c l1 = false /\
     unsubscribe c o p st = (Ok true, heap_put st subs (l1 ++ l2))) /\
  (cb_in c (heap_get st subs) = false -> unsubscribe c o p st = (Ok false, st)).
Proof.
  intros Ha. rewrite (unsubscribe_spec _ _ _ _ _ _ c Ha). unfold remove_subscriber. split.
  - intros E. destruct (list_remove_first c _ E) as (l1 & c' & l2 & Hl & Hid & Hn & Hr).
    exists l1, c', l2. rewrite E, Hr. auto.
  - intros E. by rewrite E.
Qed.

Lemma C8_unsubscribe_removes_one_witness :
  (cb_in log_cb (heap_get st_show_log 0) = true ->
   exists l1 c' l2,
     heap_get st_show_log 0 = l1 ++ c' :: l2 /\ cb_id c' = cb_id log_cb /\
     cb_in log_cb l1 = false /\
     unsubscribe log_cb t "celsius" st_show_log = (Ok true, heap_put st_show_log 0 (l1 ++ l2))) /\
  (cb_in log_cb (heap_get st_show_log 0) = false ->
   unsubscribe log_cb t "celsius" st_show_log = (Ok false, st_show_log)).
Proof. apply (C8_unsubscribe_removes_one st_show_log t "celsius" celsius_d 0 1). solve_obs_attr. Defined.

(** C9 (code_bug).  [del t.celsius] runs the deleter, then
    [delattr(t, "__celsius_subscribers")] raises [AttributeError]: the
    list is a class attribute, not one of [t].  The subscriber list stays
    as it was and a later [subscribe] on the deleted attribute succeeds. *)
Theorem C9_delete_keeps_subscribers :
  let st1 := snd ((py_setattr 10 t "celsius" 10 ;; subscribe log_cb t "celsius") st_T) in
  let st2 := snd (py_delattr t "celsius" st1) in
  fst (py_delattr t "celsius" st1) = Raise (AttributeError "__celsius_subscribers") /\
  py_getattr st2 t "celsius" = Raise (AttributeError "_celsius") /\
  map cb_id (heap_get st2 0) = [1] /\
  fst (subscribe show_cb t "celsius" st2) = Ok tt.
Proof. vm_compute. repeat split. Qed.

(** C10 (counterexample).  [log] (with a [__name__]) and the nameless
    [partial] (which re-assigns the attribute) are subscribed in that
    order: the re-entrant assignment raises [ObservablePropertyError]
    naming [log], not [AttributeError]. *)
Lemma C10_nameless_reentrant_callback_not_first :
  cb_name partial_bad_cb = None /\
  outcome (subscribe log_cb t "celsius" ;; subscribe partial_bad_cb t "celsius" ;;
           py_setattr 10 t "celsius" 10) st_T
    = (Raise (ObservablePropertyError
                "'log' is not allowed to modify observable property 'Temperature.celsius'"),
       [(1, t, "celsius", 10%Z)]).
Proof. vm_compute. split; reflexivity. Qed.

(** C10 (amended).  When a subscriber re-assigns the attribute (an
    attribute with a setter, the guard empty, the subscribers in front of
    it only recording the call), the error is built from the [__name__] of
    the first subscriber of the list (the first one met in the guard),
    whichever callback re-entered: the assignment raises [AttributeError]
    exactly when that subscriber has no [__name__], and otherwise an
    [ObservablePropertyError] naming it. *)
Theorem C10_error_reads_first_subscriber_name fuel st o p d subs recs pre c post v w :
  obs_attr st o p d subs recs -> has_setter d = true ->
  heap_get st subs = pre ++ c :: post -> heap_get st recs = [] ->
  Forall (logger o p v) pre -> NoDup (map cb_id (pre ++ [c])) ->
  cb_body c o p v = [ASet o p w] -> S (length pre) < fuel ->
  (cb_name (hd c pre) = None ->
   fst (py_setattr fuel o p v st) = Raise (AttributeError "__name__")) /\
  (forall n, cb_name (hd c pre) = Some n ->
   fst (py_setattr fuel o p v st)
     = Raise (ObservablePropertyError
                ("'" +:+ n +:+ "' is not allowed to modify observable property "
                 +:+ "'" +:+ class_name st o +:+ "." +:+ p +:+ "'"))).
Proof.
  intros Ha Hset Hs Hr Hl Hnd Hc Hf.
  destruct (set_reentrant fuel st o p d subs recs pre c post v w Ha Hset Hs Hr Hl Hnd Hc Hf)
    as (st' & Hset' & _).
  rewrite Hset'. unfold reentry_error. split.
  - intros Hn. by rewrite Hn.
  - intros n Hn. rewrite Hn, (oa_name _ _ _ _ _ _ Ha). reflexivity.
Qed.

Lemma C10_error_reads_first_subscriber_name_witness :
  fst (py_setattr 10 t "celsius" 10 st_partial_log) = Raise (AttributeError "__name__") /\
  fst (py_setattr 10 t "celsius" 10 st_log_partial)
    = Raise (ObservablePropertyError
               ("'" +:+ "log" +:+ "' is not allowed to modify observable property "
                +:+ "'" +:+ class_name st_log_partial t +:+ "." +:+ "celsius" +:+ "'")).
Proof.
  split.
  - apply (proj1 (C10_error_reads_first_subscriber_name 10 st_partial_log t "celsius" celsius_d 0 1
                    [] partial_bad_cb [log_cb] 10 11
                    ltac:(solve_obs_attr) eq_refl ltac:(vm_compute; reflexivity)
                    ltac:(vm_compute; reflexivity) ltac:(solve_loggers)
                    ltac:(vm_compute; repeat constructor; set_solver) eq_refl
                    ltac:(cbn; lia))).
    reflexivity.
  - apply (proj2 (C10_error_reads_first_subscriber_name 10 st_log_partial t "celsius" celsius_d 0 1
                    [log_cb] partial_bad_cb [] 10 11
                    ltac:(solve_obs_attr) eq_refl ltac:(vm_compute; reflexivity)
                    ltac:(vm_compute; reflexivity) ltac:(solve_loggers)
                    ltac:(vm_compute; repeat constructor; set_solver) eq_refl
                    ltac:(cbn; lia))).
    reflexivity.
Defined.

(* ------------------------------------------------------------------ *)
(** ** Further properties of the module *)

Lemma heap_put_put st r a b : heap_put (heap_put st r a) r b = heap_put st r b.
Proof. unfold heap_put; cbn. by rewrite insert_insert_eq. Qed.

Lemma count_cb_zero c l : count_cb c l = 0 -> cb_in c l = false.
Proof.
  induction l as [|x l IH]; [reflexivity|]. intros H.
  destruct (cb_eqb c x) eqn:E.
  - rewrite count_cb_cons_eq in H; [discriminate|].
    unfold cb_eqb in E. apply Nat.eqb_eq in E. auto.
  - unfold count_cb in H. rewrite filter_cons_False in H by (rewrite E; auto).
    unfold cb_in. cbn [existsb]. rewrite E. apply IH, H.
Qed.

Lemma cb_in_snoc_self c l : cb_in c (l ++ [c]) = true.
Proof. rewrite cb_in_app, cb_in_single, Nat.eqb_refl. apply orb_true_r. Qed.

(** [subscribe] as it runs on an observable attribute: [unsubscribe]
    leaves the state [st1], then the callback is appended. *)
Lemma subscribe_spec st o p d subs recs c :
  obs_attr st o p d subs recs ->
  exists st1,
    subscribe c o p st = (Ok tt, heap_put st1 subs (list_remove c (heap_get st subs) ++ [c])) /\
    objs st1 = objs st /\ trace st1 = trace st /\ heap_get st1 subs = list_remove c (heap_get st subs) /\
    (st1 = st \/ st1 = heap_put st subs (list_remove c (heap_get st subs))).
Proof.
  intros Ha. pose proof Ha as [H1 H2 H0 H3 H4 H5 H6 H7 H8 H9].
  pose proof (unsubscribe_spec _ _ _ _ _ _ c Ha) as Hu. unfold remove_subscriber in Hu.
  unfold subscribe.
  destruct (cb_in c (heap_get st subs)) eqn:E.
  - set (st1 := heap_put st subs (list_remove c (heap_get st subs))).
    assert (Ha1 : obs_attr st1 o p d subs recs) by (apply (obs_attr_objs st); [reflexivity|exact Ha]).
    exists st1. rewrite (bind_ok _ _ _ _ _ Hu).
    rewrite <- H0, (bind_ok _ _ _ _ _ (getattr_list_ok _ _ _ _ (oa_subs _ _ _ _ _ _ Ha1)
                                         (oa_subs_inst _ _ _ _ _ _ Ha1))).
    unfold append_subscriber. unfold st1 at 2. rewrite heap_get_put_eq.
    repeat split; auto. apply heap_get_put_eq.
  - exists st. rewrite (bind_ok _ _ _ _ _ Hu).
    rewrite <- H0, (bind_ok _ _ _ _ _ (getattr_list_ok _ _ _ _ H3 H5)).
    rewrite list_remove_absent by exact E. repeat split; auto.
Qed.

Lemma nodup_remove c l :
  NoDup (map cb_id l) ->
  NoDup (map cb_id (list_remove c l)) /\ cb_id c ∉ map cb_id (list_remove c l).
Proof.
  intros Hnd. destruct (cb_in c l) eqn:E.
  - destruct (list_remove_first c l E) as (l1 & c' & l2 & -> & Hid & _ & ->).
    split; [exact (proj2 (nodup_mid _ _ _ Hnd))|].
    rewrite map_app in Hnd |- *. cbn in Hnd. apply NoDup_ListNoDup in Hnd.
    apply NoDup_remove_2 in Hnd. rewrite <- Hid. intros Hin. apply Hnd, list_elem_of_In, Hin.
  - rewrite list_remove_absent by exact E. split; [exact Hnd|].
    intros Hin. apply cb_in_true in Hin. congruence.
Qed.

Lemma nodup_snoc_intro (l : list callback) c :
  NoDup (map cb_id l) -> cb_id c ∉ map cb_id l -> NoDup (map cb_id (l ++ [c])).
Proof.
  intros Hnd Hn. rewrite map_app. apply NoDup_app. split; [exact Hnd|]. split.
  - intros x Hx Hx'. cbn in Hx'. apply list_elem_of_singleton in Hx'. subst. contradiction.
  - cbn. apply NoDup_singleton.
Qed.

(** [_observable_notify] on an observable attribute whose subscribers are
    all loggers. *)
Lemma notify_loggers fuel st o p d subs recs l v :
  obs_attr st o p d subs recs -> own_attr st o p = Some (CObservable d) ->
  py_getattr st o p = Ok (PInt v) ->
  heap_get st subs = l -> heap_get st recs = [] ->
  Forall (logger o p v) l -> NoDup (map cb_id l) -> length l < fuel ->
  exists st', observable_notify fuel o p st = (Ok tt, st') /\
    trace st' = trace st ++ notified l o p v /\ objs st' = objs st /\
    heap_get st' subs = l /\ heap_get st' recs = [].
Proof.
  intros Ha Hown Hget Hs Hr Hl Hnd Hf.
  unfold own_attr in Hown. unfold observable_notify.
  destruct (objs st !! o) as [ob|] eqn:Hob; [|discriminate]. rewrite Hown.
  assert (Hv : getattr_int o p st = (Ok v, st)) by (unfold getattr_int; by rewrite Hget).
  rewrite (bind_ok _ _ _ _ _ Hv). unfold run_observers.
  rewrite (bind_ok _ _ _ _ _ (getattr_list_ok _ _ _ _ (oa_subs _ _ _ _ _ _ Ha)
                                (oa_subs_inst _ _ _ _ _ _ Ha))).
  rewrite (bind_ok _ _ _ _ _ (getattr_list_ok _ _ _ _ (oa_recs _ _ _ _ _ _ Ha)
                                (oa_recs_inst _ _ _ _ _ _ Ha))).
  destruct (execute_loggers fuel o d v subs recs 0 st l l [])
    as (st2 & Hex & Hs2 & Hr2 & Ho2 & Ht2).
  - exact (oa_distinct _ _ _ _ _ _ Ha).
  - exact Hs.
  - by rewrite app_nil_r.
  - rewrite (oa_name _ _ _ _ _ _ Ha). exact Hl.
  - rewrite Hr. apply fresh_in_nil.
  - exact Hnd.
  - rewrite (oa_name _ _ _ _ _ _ Ha). exact Hget.
  - exact Hf.
  - assert (Hrun : execute_callbacks fuel o d v subs recs 0 st = (Ok tt, st2)).
    { rewrite Hex. replace (fuel - length l) with (S (fuel - length l - 1)) by lia.
      cbn [execute_callbacks]. rewrite Hs2, lookup_ge_None_2 by lia. reflexivity. }
    rewrite (finally_clear_eq _ _ _ _ _ Hrun).
    rewrite (oa_name _ _ _ _ _ _ Ha) in Ht2.
    eexists. split; [reflexivity|]. split; [exact Ht2|]. split; [exact Ho2|]. split.
    + rewrite heap_get_put_ne; [exact Hs2|]. intros E. exact (oa_distinct _ _ _ _ _ _ Ha (eq_sym E)).
    + apply heap_get_put_eq.
Qed.

Lemma string_length_app (a b : string) : String.length (a +:+ b) = String.length a + String.length b.
Proof. induction a as [|ch a IH]; [reflexivity|exact (f_equal S IH)]. Qed.

Lemma name_ne_prefixed p s : p <> "__" +:+ p +:+ s.
Proof.
  intros E. apply (f_equal String.length) in E. rewrite !string_length_app in E. cbn in E. lia.
Qed.

Lemma subs_ne_recs_name p : subscribers_attr_name p <> "__" +:+ p +:+ "_recursions".
Proof. unfold subscribers_attr_name. intros E. apply (inj (String.app "__")), (inj (String.app p)) in E. discriminate. Qed.

Ltac map_neq := first [assumption | apply not_eq_sym; assumption | lia].
Ltac simpl_lookup := repeat first [rewrite lookup_insert_eq | rewrite lookup_insert_ne by map_neq].

(** X1.  On an observable attribute whose list holds the callback at most
    once, [subscribe] followed by [unsubscribe] returns [True] and leaves
    the list as [unsubscribe] alone would: the callback removed, the other
    subscribers in their order. *)
Theorem X1_subscribe_then_unsubscribe st o p d subs recs c :
  obs_attr st o p d subs recs -> count_cb c (heap_get st subs) <= 1 ->
  (subscribe c o p ;; unsubscribe c o p) st
    = (Ok true, heap_put st subs (list_remove c (heap_get st subs))).
Proof.
  intros Ha Hc. destruct (subscribe_spec st o p d subs recs c Ha) as (st1 & Hs & Ho & _ & _ & Hst).
  rewrite (bind_ok _ _ _ _ _ Hs).
  assert (Ha2 : obs_attr (heap_put st1 subs (list_remove c (heap_get st subs) ++ [c])) o p d subs recs)
    by (apply (obs_attr_objs st); [cbn; by rewrite Ho|exact Ha]).
  rewrite (unsubscribe_spec _ _ _ _ _ _ c Ha2). unfold remove_subscriber.
  rewrite heap_get_put_eq, cb_in_snoc_self, heap_put_put.
  rewrite list_remove_app_absent by (apply count_cb_zero, count_cb_remove, Hc).
  rewrite list_remove_head, app_nil_r.
  destruct Hst as [-> | ->]; [reflexivity|]. by rewrite heap_put_put.
Qed.

Lemma X1_subscribe_then_unsubscribe_witness :
  (subscribe log_cb t "celsius" ;; unsubscribe log_cb t "celsius") st_show_log
    = (Ok true, heap_put st_show_log 0 (list_remove log_cb (heap_get st_show_log 0))).
Proof.
  apply (X1_subscribe_then_unsubscribe st_show_log t "celsius" celsius_d 0 1 log_cb).
  - solve_obs_attr.
  - vm_compute. lia.
Defined.

(** X2.  [subscribe] is idempotent: subscribing the same callback twice
    gives the same outcome and state as subscribing it once (when the list
    holds it at most once). *)
Theorem X2_subscribe_twice st o p d subs recs c :
  obs_attr st o p d subs recs -> count_cb c (heap_get st subs) <= 1 ->
  (subscribe c o p ;; subscribe c o p) st = subscribe c o p st.
Proof.
  intros Ha Hc. destruct (subscribe_spec st o p d subs recs c Ha) as (st1 & Hs & Ho & _).
  rewrite (bind_ok _ _ _ _ _ Hs), Hs.
  assert (Ha2 : obs_attr (heap_put st1 subs (list_remove c (heap_get st subs) ++ [c])) o p d subs recs)
    by (apply (obs_attr_objs st); [cbn; by rewrite Ho|exact Ha]).
  destruct (subscribe_spec _ o p d subs recs c Ha2) as (st2 & Hs2 & _ & _ & Hg2 & Hst2).
  rewrite Hs2. rewrite heap_get_put_eq in Hg2 |- *.
  rewrite list_remove_app_absent by (apply count_cb_zero, count_cb_remove, Hc).
  rewrite list_remove_head, app_nil_r.
  rewrite heap_get_put_eq, list_remove_app_absent, list_remove_head, app_nil_r in Hst2
    by (apply count_cb_zero, count_cb_remove, Hc).
  destruct Hst2 as [-> | ->]; rewrite !heap_put_put; reflexivity.
Qed.

Lemma X2_subscribe_twice_witness :
  (subscribe show_cb t "celsius" ;; subscribe show_cb t "celsius") st_show_log
    = subscribe show_cb t "celsius" st_show_log.
Proof.
  apply (X2_subscribe_twice st_show_log t "celsius" celsius_d 0 1 show_cb).
  - solve_obs_attr.
  - vm_compute. lia.
Defined.

(** X3.  A second [unsubscribe] of the same callback returns [False] and
    changes nothing (when the list held it at most once). *)
Theorem X3_unsubscribe_twice st o p d subs recs c :
  obs_attr st o p d subs recs -> count_cb c (heap_get st subs) <= 1 ->
  (unsubscribe c o p ;; unsubscribe c o p) st = (Ok false, snd (unsubscribe c o p st)).
Proof.
  intros Ha Hc. destruct (remove_subscriber_spec c subs st) as (b & st1 & Hr & Ho & Hs1 & _).
  pose proof (eq_trans (unsubscribe_spec _ _ _ _ _ _ c Ha) Hr) as Hu.
  rewrite (bind_ok _ _ _ _ _ Hu), Hu. cbn [snd].
  assert (Ha1 : obs_attr st1 o p d subs recs) by (apply (obs_attr_objs st); [symmetry; exact Ho|exact Ha]).
  rewrite (unsubscribe_spec _ _ _ _ _ _ c Ha1). unfold remove_subscriber.
  rewrite Hs1, (count_cb_zero _ _ (count_cb_remove _ _ Hc)). reflexivity.
Qed.

Lemma X3_unsubscribe_twice_witness :
  (unsubscribe log_cb t "celsius" ;; unsubscribe log_cb t "celsius") st_show_log
    = (Ok false, snd (unsubscribe log_cb t "celsius" st_show_log)).
Proof.
  apply (X3_unsubscribe_twice st_show_log t "celsius" celsius_d 0 1 log_cb).
  - solve_obs_attr.
  - vm_compute. lia.
Defined.

(** X4.  [subscribe] and [unsubscribe] keep the entries of a subscriber
    list pairwise distinct: if no callback is listed twice before the call,
    none is listed twice after it. *)
Theorem X4_subscriptions_stay_distinct st o p d subs recs c :
  obs_attr st o p d subs recs -> NoDup (map cb_id (heap_get st subs)) ->
  (exists st', subscribe c o p st = (Ok tt, st') /\ NoDup (map cb_id (heap_get st' subs))) /\
  (exists b st', unsubscribe c o p st = (Ok b, st') /\ NoDup (map cb_id (heap_get st' subs))).
Proof.
  intros Ha Hnd. destruct (nodup_remove c _ Hnd) as [Hnd' Hn]. split.
  - destruct (subscribe_spec st o p d subs recs c Ha) as (st1 & Hs & _).
    eexists. split; [exact Hs|]. rewrite heap_get_put_eq. by apply nodup_snoc_intro.
  - destruct (remove_subscriber_spec c subs st) as (b & st1 & Hr & _ & Hs1 & _).
    exists b, st1. rewrite (unsubscribe_spec _ _ _ _ _ _ c Ha). split; [exact Hr|].
    by rewrite Hs1.
Qed.

Lemma X4_subscriptions_stay_distinct_witness :
  (exists st', subscribe boom_cb t "celsius" st_show_log = (Ok tt, st') /\
     NoDup (map cb_id (heap_get st' 0))) /\
  (exists b st', unsubscribe boom_cb t "celsius" st_show_log = (Ok b, st') /\
     NoDup (map cb_id (heap_get st' 0))).
Proof.
  apply (X4_subscriptions_stay_distinct st_show_log t "celsius" celsius_d 0 1 boom_cb).
  - solve_obs_attr.
  - vm_compute. repeat constructor; set_solver.
Defined.

(** X5.  On an observable attribute, [subscribe] and [unsubscribe] succeed,
    change only that attribute's subscriber list, call no callback, and
    leave the objects (values, classes) and every other list, the
    recursion guard included, unchanged. *)
Theorem X5_subscription_frame st o p d subs recs c :
  obs_attr st o p d subs recs ->
  (exists st', subscribe c o p st = (Ok tt, st') /\
     objs st' = objs st /\ trace st' = trace st /\
     forall r, r <> subs -> heap_get st' r = heap_get st r) /\
  (exists b st', unsubscribe c o p st = (Ok b, st') /\
     objs st' = objs st /\ trace st' = trace st /\
     forall r, r <> subs -> heap_get st' r = heap_get st r).
Proof.
  intros Ha. split.
  - destruct (subscribe_spec st o p d subs recs c Ha) as (st1 & Hs & Ho & Ht & _ & Hst).
    eexists. split; [exact Hs|]. split; [exact Ho|]. split; [exact Ht|].
    intros r Hr. rewrite heap_get_put_ne by congruence.
    destruct Hst as [-> | ->]; [reflexivity|]. apply heap_get_put_ne. congruence.
  - rewrite (unsubscribe_spec _ _ _ _ _ _ c Ha). unfold remove_subscriber.
    destruct (cb_in c (heap_get st subs)); eexists _, _; (split; [reflexivity|]).
    + split; [reflexivity|]. split; [reflexivity|]. intros r Hr. apply heap_get_put_ne. congruence.
    + auto.
Qed.

Lemma X5_subscription_frame_witness :
  (exists st', subscribe log_cb t "celsius" st_show_log = (Ok tt, st') /\
     objs st' = objs st_show_log /\ trace st' = trace st_show_log /\
     forall r, r <> 0 -> heap_get st' r = heap_get st_show_log r) /\
  (exists b st', unsubscribe log_cb t "celsius" st_show_log = (Ok b, st') /\
     objs st' = objs st_show_log /\ trace st' = trace st_show_log /\
     forall r, r <> 0 -> heap_get st' r = heap_get st_show_log r).
Proof. apply (X5_subscription_frame st_show_log t "celsius" celsius_d 0 1 log_cb). solve_obs_attr. Defined.

(** X7.  [_observable_notify(name)] on an observable attribute declared in
    the instance's own class, whose value [v] is set, with an empty guard,
    and whose subscribers, notified of [v], only record the call (or the
    value they read back) and are listed once each: it runs the
    subscribers, in order, each once, with [v] read through the getter;
    the subscriber list is unchanged, the guard is empty again and the
    value is still [v]. *)
Theorem X7_notify_runs_subscribers fuel st o p d subs recs l v :
  obs_attr st o p d subs recs -> own_attr st o p = Some (CObservable d) ->
  py_getattr st o p = Ok (PInt v) ->
  heap_get st subs = l -> heap_get st recs = [] ->
  Forall (logger o p v) l -> NoDup (map cb_id l) -> length l < fuel ->
  exists st', observable_notify fuel o p st = (Ok tt, st') /\
    trace st' = trace st ++ notified l o p v /\
    heap_get st' subs = l /\ heap_get st' recs = [] /\
    py_getattr st' o p = Ok (PInt v).
Proof.
  intros Ha Hown Hget Hs Hr Hl Hnd Hf.
  destruct (notify_loggers fuel st o p d subs recs l v Ha Hown Hget Hs Hr Hl Hnd Hf)
    as (st' & Hn & Ht & Ho & Hs' & Hr').
  exists st'. split; [exact Hn|]. split; [exact Ht|]. split; [exact Hs'|]. split; [exact Hr'|].
  rewrite <- Hget. apply py_getattr_objs. exact Ho.
Qed.

Lemma X7_notify_runs_subscribers_witness :
  exists st', observable_notify 10 t "celsius" st_show_log_set = (Ok tt, st') /\
    trace st' = trace st_show_log_set ++ notified [show_cb; log_cb] t "celsius" 20 /\
    heap_get st' 0 = [show_cb; log_cb] /\ heap_get st' 1 = [] /\
    py_getattr st' t "celsius" = Ok (PInt 20).
Proof.
  apply (X7_notify_runs_subscribers 10 st_show_log_set t "celsius" celsius_d 0 1).
  - solve_obs_attr.
  - vm_compute. reflexivity.
  - vm_compute. reflexivity.
  - vm_compute. reflexivity.
  - vm_compute. reflexivity.
  - solve_loggers.
  - vm_compute. repeat constructor; set_solver.
  - cbn. lia.
Defined.

(** X12.  [del instance.name] on an observable with a deleter and a set
    value removes the value, then raises [AttributeError] for
    [__<name>_subscribers] (a class attribute, not in the instance); the
    subscriber list, the guard and the attribute's observability are left
    as they were. *)
Theorem X12_delete_keeps_lists st o p d subs recs :
  obs_attr st o p d subs recs -> has_deleter d = true ->
  is_Some (inst_attr st o (backing d)) ->
  exists st',
    py_delattr o p st = (Raise (AttributeError (subscribers d)), st') /\
    inst_attr st' o (backing d) = None /\
    heap st' = heap st /\ trace st' = trace st /\
    obs_attr st' o p d subs recs.
Proof.
  intros Ha Hd [w Hv]. pose proof Ha as [H1 H2 H0 H3 H4 H5 H6 H7 H8 H9].
  unfold class_attr, inst_attr in H1, H3, H4, H5, H6, Hv. unfold py_delattr.
  destruct (objs st !! o) as [ob|] eqn:Hob; [|discriminate]. rewrite H1.
  set (ob' := set_dict ob (delete (backing d) (obj_dict ob))).
  set (st1 := put_obj st o ob').
  assert (Hp : property_delete o d st = (Ok tt, st1)).
  { unfold property_delete. by rewrite Hd, Hob, Hv. }
  assert (Hob1 : objs st1 !! o = Some ob') by (cbn; apply lookup_insert_eq).
  assert (Hs1 : obj_dict ob' !! subscribers d = None).
  { cbn. rewrite lookup_delete_ne by congruence. exact H5. }
  unfold observable_delete. rewrite (bind_ok _ _ _ _ _ Hp).
  rewrite bind_raise with (e := AttributeError (subscribers d)) (st' := st1);
    [|unfold delattr_dict; by rewrite Hob1, Hs1].
  eexists. split; [reflexivity|].
  split; [unfold inst_attr; rewrite Hob1; cbn; apply lookup_delete_eq|]. split; [reflexivity|]. split; [reflexivity|].
  constructor; unfold class_attr, inst_attr; rewrite ?Hob1; cbn; try assumption.
  rewrite lookup_delete_ne by congruence. exact H6.
Qed.

Lemma X12_delete_keeps_lists_witness :
  exists st',
    py_delattr t "celsius" st_show_log_set = (Raise (AttributeError "__celsius_subscribers"), st') /\
    inst_attr st' t "_celsius" = None /\
    heap st' = heap st_show_log_set /\ trace st' = trace st_show_log_set /\
    obs_attr st' t "celsius" celsius_d 0 1.
Proof.
  apply (X12_delete_keeps_lists st_show_log_set t "celsius" celsius_d 0 1).
  - solve_obs_attr.
  - reflexivity.
  - vm_compute. eexists. reflexivity.
Defined.

(** X13.  A class created (with no base class) from an [@observable]
    property [name] whose accessors use a backing attribute other than the
    two list names gets, through [__set_name__], two fresh empty lists
    [__<name>_subscribers] and [__<name>_recursions]; a new instance of it
    then has [name] as an observable attribute over these lists, declared
    in its own class, with no value yet. *)
Theorem X13_class_creation_makes_observable st name p bk set del :
  bk <> subscribers_attr_name p -> bk <> "__" +:+ p +:+ "_recursions" ->
  let '(c, st1) := create_class st name None [DObservable p bk set del] in
  let '(o, st2) := new_object st1 c in
  exists d, obs_attr st2 o p d (next_ref st) (S (next_ref st)) /\
    own_attr st2 o p = Some (CObservable d) /\
    backing d = bk /\ has_setter d = set /\ has_deleter d = del /\
    heap_get st2 (next_ref st) = [] /\ heap_get st2 (S (next_ref st)) = [] /\
    py_getattr st2 o p = Raise (AttributeError bk).
Proof.
  intros Hb1 Hb2. pose proof (name_ne_prefixed p "_subscribers") as Hp1.
  pose proof (name_ne_prefixed p "_recursions") as Hp2.
  pose proof (subs_ne_recs_name p) as Hsr. unfold subscribers_attr_name in *.
  unfold create_class. cbn [foldl]. unfold set_name. cbn -[String.append].
  destruct (class_hasattr _ ("__" +:+ p +:+ "_subscribers")) eqn:E1.
  { exfalso. revert E1. unfold class_hasattr, class_setattr. cbn -[String.append].
    rewrite !lookup_insert_ne by congruence. rewrite lookup_empty. discriminate. }
  cbn -[String.append].
  destruct (class_hasattr _ ("__" +:+ p +:+ "_recursions")) eqn:E2.
  { exfalso. revert E2. unfold class_hasattr, class_setattr. cbn -[String.append].
    rewrite !lookup_insert_ne by congruence. rewrite lookup_empty. discriminate. }
  cbn -[String.append].
  exists {| observable_property := p; subscribers := "__" +:+ p +:+ "_subscribers";
            recursions := "__" +:+ p +:+ "_recursions"; backing := bk; has_setter := set;
            has_deleter := del |}.
  split; [|split; [|split; [reflexivity|split; [reflexivity|split; [reflexivity|split; [|split]]]]]];
    try constructor.
  all: unfold class_attr, inst_attr, own_attr, heap_get, py_getattr, vars, class_setattr.
  all: cbn -[String.append lookup insert empty]; simpl_lookup.
  all: cbn -[String.append lookup insert empty]; simpl_lookup.
  all: cbn -[String.append lookup insert empty]; first [reflexivity | lia | assumption].
Qed.

Lemma X13_class_creation_makes_observable_witness :
  let '(c, st1) := create_class st_empty "Temperature" None [DObservable "celsius" "_celsius" true true] in
  let '(o, st2) := new_object st1 c in
  exists d, obs_attr st2 o "celsius" d 0 1 /\
    own_attr st2 o "celsius" = Some (CObservable d) /\
    backing d = "_celsius" /\ has_setter d = true /\ has_deleter d = true /\
    heap_get st2 0 = [] /\ heap_get st2 1 = [] /\
    py_getattr st2 o "celsius" = Raise (AttributeError "_celsius").
Proof.
  apply (X13_class_creation_makes_observable st_empty "Temperature" "celsius" "_celsius" true true).
  - vm_compute. discriminate.
  - vm_compute. discriminate.
Defined.

(** X14.  When a subclass re-declares an [@observable] property [name] of
    its base class, [__set_name__] finds the inherited lists
    ([hasattr] is true) and creates none: the subclass's observable uses
    the base class's subscriber list and guard, and no new list is made. *)
Theorem X14_redeclared_observable_shares_lists st name b p bk set del r g :
  mro_lookup (cls_mro b) (subscribers_attr_name p) = Some (CList r) ->
  mro_lookup (cls_mro b) ("__" +:+ p +:+ "_recursions") = Some (CList g) ->
  let '(c, st1) := create_class st name (Some b) [DObservable p bk set del] in
  st1 = st /\
  mro_lookup (cls_mro c) (subscribers_attr_name p) = Some (CList r) /\
  mro_lookup (cls_mro c) ("__" +:+ p +:+ "_recursions") = Some (CList g) /\
  exists d, mro_lookup (cls_mro c) p = Some (CObservable d) /\
    subscribers d = subscribers_attr_name p /\ recursions d = "__" +:+ p +:+ "_recursions" /\
    backing d = bk.
Proof.
  intros Hr Hg. pose proof (name_ne_prefixed p "_subscribers") as Hp1.
  pose proof (name_ne_prefixed p "_recursions") as Hp2.
  unfold subscribers_attr_name in *.
  unfold create_class. cbn [foldl]. unfold set_name. cbn -[String.append lookup insert empty].
  assert (E1 : class_hasattr (class_setattr
     {| cls_name := name; cls_mro := <[p:=CObservable (unnamed bk set del)]> ∅ :: cls_mro b |} p
     (CObservable {| observable_property := p; subscribers := "__" +:+ p +:+ "_subscribers";
                     recursions := "__" +:+ p +:+ "_recursions"; backing := bk;
                     has_setter := set; has_deleter := del |})) ("__" +:+ p +:+ "_subscribers") = true).
  { unfold class_hasattr, class_setattr. cbn -[String.append lookup insert empty].
    simpl_lookup. rewrite lookup_empty, Hr. reflexivity. }
  rewrite E1. cbn -[String.append lookup insert empty].
  assert (E2 : class_hasattr (class_setattr
     {| cls_name := name; cls_mro := <[p:=CObservable (unnamed bk set del)]> ∅ :: cls_mro b |} p
     (CObservable {| observable_property := p; subscribers := "__" +:+ p +:+ "_subscribers";
                     recursions := "__" +:+ p +:+ "_recursions"; backing := bk;
                     has_setter := set; has_deleter := del |})) ("__" +:+ p +:+ "_recursions") = true).
  { unfold class_hasattr, class_setattr. cbn -[String.append lookup insert empty].
    simpl_lookup. rewrite lookup_empty, Hg. reflexivity. }
  rewrite E2. cbn -[String.append lookup insert empty].
  split; [reflexivity|]. simpl_lookup. rewrite !lookup_empty, Hr, Hg.
  split; [reflexivity|]. split; [reflexivity|].
  eexists. split; [reflexivity|]. auto.
Qed.

Lemma X14_redeclared_observable_shares_lists_witness :
  let '(c, st1) := create_class st_T "Sub" (Some Temperature) [DObservable "celsius" "_c" true true] in
  st1 = st_T /\
  mro_lookup (cls_mro c) (subscribers_attr_name "celsius") = Some (CList 0) /\
  mro_lookup (cls_mro c) ("__" +:+ "celsius" +:+ "_recursions") = Some (CList 1) /\
  exists d, mro_lookup (cls_mro c) "celsius" = Some (CObservable d) /\
    subscribers d = subscribers_attr_name "celsius" /\
    recursions d = "__" +:+ "celsius" +:+ "_recursions" /\
    backing d = "_c".
Proof.
  apply (X14_redeclared_observable_shares_lists st_T "Sub" Temperature "celsius" "_c" true true 0 1).
  - vm_compute. reflexivity.
  - vm_compute. reflexivity.
Defined.

(** X15.  [with instance._observable(name): instance._backing = w], on an
    observable attribute declared in the instance's own class (no class
    attribute named like the backing attribute), with an empty guard, and
    whose subscribers, notified of [w], only record the call (or the value
    they read back) and are listed once each: the block stores [w] without
    any notification, and on exit the subscribers run once each, in order,
    with [w]; the attribute then reads [w].  For any body that raises, the
    exception propagates and no subscriber runs. *)
Theorem X15_observable_context_notifies_on_exit fuel st o p d subs recs l w :
  obs_attr st o p d subs recs -> own_attr st o p = Some (CObservable d) ->
  class_attr st o (backing d) = None ->
  heap_get st subs = l -> heap_get st recs = [] ->
  Forall (logger o p w) l -> NoDup (map cb_id l) -> length l < fuel ->
  (exists st', observable_ctx fuel o p (py_setattr fuel o (backing d) w) st = (Ok tt, st') /\
     trace st' = trace st ++ notified l o p w /\ py_getattr st' o p = Ok (PInt w)) /\
  (forall A (body : M A) e st1, body st = (Raise e, st1) ->
     observable_ctx fuel o p body st = (Raise e, st1)).
Proof.
  intros Ha Hown Hb Hs Hr Hl Hnd Hf. split.
  2: { intros A body e st1 H. exact (bind_raise _ _ _ _ _ H). }
  destruct (dict_write_spec st o p d subs recs w Ha)
    as (st1 & Hset & _ & Ha1 & Hown1 & Hg1 & Hh1 & Ht1 & _).
  specialize (Hset (execute_callbacks fuel) Hb). rewrite Hown in Hown1.
  destruct (notify_loggers fuel st1 o p d subs recs l w Ha1 Hown1 Hg1)
    as (st2 & Hn & Ht2 & Ho2 & _).
  - unfold heap_get. rewrite Hh1. exact Hs.
  - unfold heap_get. rewrite Hh1. exact Hr.
  - exact Hl.
  - exact Hnd.
  - exact Hf.
  - exists st2. unfold observable_ctx. rewrite (bind_ok _ _ _ _ _ Hset), Hn.
    split; [reflexivity|]. split; [by rewrite Ht2, Ht1|].
    rewrite <- Hg1. apply py_getattr_objs. exact Ho2.
Qed.

Lemma X15_observable_context_notifies_on_exit_witness :
  (exists st', observable_ctx 10 t "celsius" (py_setattr 10 t "_celsius" 25) st_show_log = (Ok tt, st') /\
     trace st' = trace st_show_log ++ notified [show_cb; log_cb] t "celsius" 25 /\
     py_getattr st' t "celsius" = Ok (PInt 25)) /\
  (forall A (body : M A) e st1, body st_show_log = (Raise e, st1) ->
     observable_ctx 10 t "celsius" body st_show_log = (Raise e, st1)).
Proof.
  apply (X15_observable_context_notifies_on_exit 10 st_show_log t "celsius" celsius_d 0 1
           [show_cb; log_cb] 25).
  - solve_obs_attr.
  - vm_compute. reflexivity.
  - vm_compute. reflexivity.
  - vm_compute. reflexivity.
  - vm_compute. reflexivity.
  - solve_loggers.
  - vm_compute. repeat constructor; set_solver.
  - cbn. lia.
Defined.

(** X16.  Both [observable.__set__] and [observable._run_observers] clear
    the guard in their [finally] block, whether the cycle ends normally or
    by an exception: afterwards the guard is empty, and a later assignment
    to the attribute (with a setter, its subscribers only recording the
    call, each listed once) runs every subscriber again, in order. *)
Theorem X16_guard_cleared_after_every_cycle fuel st o p d subs recs v :
  obs_attr st o p d subs recs ->
  heap_get (snd (py_setattr fuel o p v st)) recs = [] /\
  heap_get (snd (run_observers fuel o d v st)) recs = [] /\
  (forall fuel' v',
     let st' := snd (py_setattr fuel o p v st) in
     obs_attr st' o p d subs recs -> has_setter d = true ->
     Forall (logger o p v') (heap_get st' subs) -> NoDup (map cb_id (heap_get st' subs)) ->
     length (heap_get st' subs) < fuel' ->
     exists st'',
       py_setattr fuel' o p v' st' = (Ok tt, st'') /\
       trace st'' = trace st' ++ notified (heap_get st' subs) o p v').
Proof.
  intros Ha.
  assert (Hg : heap_get (snd (py_setattr fuel o p v st)) recs = []).
  { unfold py_setattr. rewrite (py_setattr_observable _ _ _ _ _ _ _ _ Ha).
    apply finally_clear_guard. }
  split; [exact Hg|]. split.
  - unfold run_observers.
    rewrite (bind_ok _ _ _ _ _ (getattr_list_ok _ _ _ _ (oa_subs _ _ _ _ _ _ Ha)
                                  (oa_subs_inst _ _ _ _ _ _ Ha))).
    rewrite (bind_ok _ _ _ _ _ (getattr_list_ok _ _ _ _ (oa_recs _ _ _ _ _ _ Ha)
                                  (oa_recs_inst _ _ _ _ _ _ Ha))).
    apply finally_clear_guard.
  - intros fuel' v' st' Ha' Hset Hl Hnd Hf.
    destruct (set_loggers fuel' st' o p d subs recs (heap_get st' subs) v' Ha' Hset
                eq_refl Hg Hl Hnd Hf) as (st'' & H1 & H2 & _).
    exists st''. auto.
Qed.

Lemma X16_guard_cleared_after_every_cycle_witness :
  fst (py_setattr 10 t "celsius" 10 st_show_fussy) = Raise (CallbackError (cb_id fussy_cb)) /\
  heap_get (snd (py_setattr 10 t "celsius" 10 st_show_fussy)) 1 = [] /\
  heap_get (snd (run_observers 10 t celsius_d 10 st_show_fussy)) 1 = [] /\
  exists st'',
    py_setattr 10 t "celsius" 20 (snd (py_setattr 10 t "celsius" 10 st_show_fussy)) = (Ok tt, st'') /\
    trace st'' = trace (snd (py_setattr 10 t "celsius" 10 st_show_fussy))
                 ++ notified [show_cb; fussy_cb] t "celsius" 20.
Proof.
  split; [vm_compute; reflexivity|].
  split; [apply (proj1 (X16_guard_cleared_after_every_cycle 10 st_show_fussy t "celsius"
                          celsius_d 0 1 10 ltac:(solve_obs_attr)))|].
  split; [apply (proj1 (proj2 (X16_guard_cleared_after_every_cycle 10 st_show_fussy t "celsius"
                                 celsius_d 0 1 10 ltac:(solve_obs_attr))))|].
  replace [show_cb; fussy_cb] with (heap_get (snd (py_setattr 10 t "celsius" 10 st_show_fussy)) 0)
    by (vm_compute; reflexivity).
  apply (proj2 (proj2 (X16_guard_cleared_after_every_cycle 10 st_show_fussy t "celsius"
                         celsius_d 0 1 10 ltac:(solve_obs_attr))) 10 20%Z).
  - solve_obs_attr.
  - reflexivity.
  - vm_compute. solve_loggers.
  - vm_compute. repeat constructor; set_solver.
  - vm_compute. lia.
Defined.
